(** * compETAG: ETag and MD5 digests of local files, and their reconciliation

    A shallow embedding of [src/comp_etag/core.py].  The Python functions
    [md5_checksum], [etag_checksum], [etag_compare], [get_objects],
    [get_object_etag], [get_etags_from_s3uri], [retrieve_s3uri_etag] and
    [check_hashes] are translated one by one, keeping their names.

    - [hashlib.md5] is the MD5 function of RFC 1321, written out in module
      [MD5] over 32-bit words held in [Z].
    - File contents are [list byte]; file names, digests and report lines
      are [string].
    - Exceptions, [print] and the reads of the file system and of S3 are
      made explicit by a state-and-error monad [M]: the state holds the
      lines printed so far and the log of external operations. *)

From Stdlib Require Import ZArith List Strings.String Strings.Ascii Strings.Byte.
From Stdlib Require Import Numbers.DecimalString Numbers.DecimalPos Numbers.DecimalZ.
From Stdlib Require Import Bool Lia Arith Sorting.Permutation.
Import ListNotations.

Local Open Scope Z_scope.

Definition bytes := list byte.

(** ** MD5 (RFC 1321), the function behind [hashlib.md5] *)

Module MD5.

Definition mask32 : Z := 0xffffffff.

Definition add32 (x y : Z) : Z := Z.land (x + y) mask32.

Definition not32 (x : Z) : Z := Z.lxor x mask32.

Definition rotl32 (x : Z) (c : Z) : Z :=
  Z.lor (Z.land (Z.shiftl x c) mask32) (Z.shiftr x (32 - c)).

Definition K : list Z :=
  [ 0xd76aa478; 0xe8c7b756; 0x242070db; 0xc1bdceee;
    0xf57c0faf; 0x4787c62a; 0xa8304613; 0xfd469501;
    0x698098d8; 0x8b44f7af; 0xffff5bb1; 0x895cd7be;
    0x6b901122; 0xfd987193; 0xa679438e; 0x49b40821;
    0xf61e2562; 0xc040b340; 0x265e5a51; 0xe9b6c7aa;
    0xd62f105d; 0x02441453; 0xd8a1e681; 0xe7d3fbc8;
    0x21e1cde6; 0xc33707d6; 0xf4d50d87; 0x455a14ed;
    0xa9e3e905; 0xfcefa3f8; 0x676f02d9; 0x8d2a4c8a;
    0xfffa3942; 0x8771f681; 0x6d9d6122; 0xfde5380c;
    0xa4beea44; 0x4bdecfa9; 0xf6bb4b60; 0xbebfbc70;
    0x289b7ec6; 0xeaa127fa; 0xd4ef3085; 0x04881d05;
    0xd9d4d039; 0xe6db99e5; 0x1fa27cf8; 0xc4ac5665;
    0xf4292244; 0x432aff97; 0xab9423a7; 0xfc93a039;
    0x655b59c3; 0x8f0ccc92; 0xffeff47d; 0x85845dd1;
    0x6fa87e4f; 0xfe2ce6e0; 0xa3014314; 0x4e0811a1;
    0xf7537e82; 0xbd3af235; 0x2ad7d2bb; 0xeb86d391 ].

Definition shifts : list Z :=
  [ 7; 12; 17; 22; 7; 12; 17; 22; 7; 12; 17; 22; 7; 12; 17; 22;
    5;  9; 14; 20; 5;  9; 14; 20; 5;  9; 14; 20; 5;  9; 14; 20;
    4; 11; 16; 23; 4; 11; 16; 23; 4; 11; 16; 23; 4; 11; 16; 23;
    6; 10; 15; 21; 6; 10; 15; 21; 6; 10; 15; 21; 6; 10; 15; 21 ].

Record regs := Regs { rA : Z; rB : Z; rC : Z; rD : Z }.

Definition init : regs :=
  Regs 0x67452301 0xefcdab89 0x98badcfe 0x10325476.

(** One of the 64 operations of a block: [i] is the operation index and
    [m] the sixteen little-endian words of the block. *)
Definition round (m : list Z) (r : regs) (i : nat) : regs :=
  let '(Regs a b c d) := r in
  let '(f, g) :=
    if (i <? 16)%nat then
      (Z.lor (Z.land b c) (Z.land (not32 b) d), i)
    else if (i <? 32)%nat then
      (Z.lor (Z.land d b) (Z.land (not32 d) c), ((5 * i + 1) mod 16)%nat)
    else if (i <? 48)%nat then
      (Z.lxor (Z.lxor b c) d, ((3 * i + 5) mod 16)%nat)
    else
      (Z.lxor c (Z.lor b (not32 d)), ((7 * i) mod 16)%nat) in
  let f' := add32 (add32 (add32 f a) (nth i K 0)) (nth g m 0) in
  Regs d (add32 b (rotl32 f' (nth i shifts 0))) b c.

Definition word_le (b0 b1 b2 b3 : byte) : Z :=
  Z.of_N (Byte.to_N b0) + 256 * (Z.of_N (Byte.to_N b1)
    + 256 * (Z.of_N (Byte.to_N b2) + 256 * Z.of_N (Byte.to_N b3))).

Fixpoint words_le (bs : bytes) : list Z :=
  match bs with
  | b0 :: b1 :: b2 :: b3 :: rest => word_le b0 b1 b2 b3 :: words_le rest
  | _ => []
  end.

Definition block (r : regs) (blk : bytes) : regs :=
  let r' := fold_left (round (words_le blk)) (seq 0 64) r in
  Regs (add32 (rA r) (rA r')) (add32 (rB r) (rB r'))
       (add32 (rC r) (rC r')) (add32 (rD r) (rD r')).

Definition byte_of_Z (z : Z) : byte :=
  match Byte.of_N (Z.to_N (Z.land z 0xff)) with
  | Some b => b
  | None => x00
  end.

(** The [n] low bytes of [z], least significant first. *)
Fixpoint bytes_le (n : nat) (z : Z) : bytes :=
  match n with
  | O => []
  | S k => byte_of_Z z :: bytes_le k (Z.shiftr z 8)
  end.

(** Padding: a [0x80] byte, zeros up to 56 modulo 64, then the bit
    length of the message on 64 bits, little-endian. *)
Definition pad (msg : bytes) : bytes :=
  let len := Z.of_nat (List.length msg) in
  let zeros := Z.to_nat ((55 - len) mod 64) in
  msg ++ x80 :: repeat x00 zeros ++ bytes_le 8 (Z.land (8 * len) 0xffffffffffffffff).

(** The padded message is consumed 64 bytes at a time; [n] counts the
    blocks. *)
Fixpoint blocks (n : nat) (r : regs) (bs : bytes) : regs :=
  match n with
  | O => r
  | S k => blocks k (block r (firstn 64 bs)) (skipn 64 bs)
  end.

(** [hashlib.md5(msg).digest()]: the 16 raw bytes. *)
Definition digest (msg : bytes) : bytes :=
  let p := pad msg in
  let r := blocks (List.length p / 64) init p in
  bytes_le 4 (rA r) ++ bytes_le 4 (rB r) ++ bytes_le 4 (rC r) ++ bytes_le 4 (rD r).

Definition hex_digit (n : N) : ascii :=
  match n with
  | 0%N => "0" | 1%N => "1" | 2%N => "2" | 3%N => "3"
  | 4%N => "4" | 5%N => "5" | 6%N => "6" | 7%N => "7"
  | 8%N => "8" | 9%N => "9" | 10%N => "a" | 11%N => "b"
  | 12%N => "c" | 13%N => "d" | 14%N => "e" | _ => "f"
  end%char.

Fixpoint hex (bs : bytes) : string :=
  match bs with
  | [] => EmptyString
  | b :: rest =>
      String (hex_digit (Byte.to_N b / 16))
        (String (hex_digit (Byte.to_N b mod 16)) (hex rest))
  end.

(** [hashlib.md5(msg).hexdigest()]. *)
Definition hexdigest (msg : bytes) : string := hex (digest msg).

End MD5.

(** ** Python values and string primitives *)

Local Open Scope string_scope.

(** The bytes literal [b"..."]. *)
Definition bstr (s : string) : bytes := list_byte_of_string s.

Definition dquote : ascii := "034"%char.
Definition tab : string := String "009"%char EmptyString.

(** [s.lstrip(c)] and [s.rstrip(c)] for a one-character set, and
    [s.strip(c)], which removes the character at both ends. *)
Fixpoint lstrip (c : ascii) (s : string) : string :=
  match s with
  | EmptyString => EmptyString
  | String a s' => if Ascii.eqb a c then lstrip c s' else s
  end.

Fixpoint rstrip (c : ascii) (s : string) : string :=
  match s with
  | EmptyString => EmptyString
  | String a s' =>
      match rstrip c s' with
      | EmptyString => if Ascii.eqb a c then EmptyString else String a EmptyString
      | r => String a r
      end
  end.

Definition strip (c : ascii) (s : string) : string := rstrip c (lstrip c s).

(** [sep.join(l)]. *)
Definition join (sep : string) (l : list string) : string := String.concat sep l.

(** [sub in s] on strings. *)
Fixpoint contains (sub s : string) : bool :=
  String.prefix sub s ||
  match s with
  | EmptyString => false
  | String _ s' => contains sub s'
  end.

(** [str(n)] for an integer. *)
Definition str_of_Z (z : Z) : string := NilZero.string_of_int (Z.to_int z).

(** The integer that a sign and decimal digits denote. *)
Definition decimal_reading (s : string) : option Z :=
  option_map Z.of_int (NilZero.int_of_string s).

(** The number of digits of a literal, its sign apart. *)
Definition digit_count (s : string) : nat :=
  match s with
  | String a s' => if Ascii.eqb a "-" then String.length s' else String.length s
  | EmptyString => O
  end.

(** [sys.get_int_max_str_digits()], as the interpreter starts. *)
Definition int_max_str_digits : nat := 4300.

(** [int(s)] on the strings that reach it here (a sign and decimal
    digits); [None] stands for its [ValueError]: an invalid literal, or
    more digits than the interpreter converts. *)
Definition int_of_str (s : string) : option Z :=
  if (int_max_str_digits <? digit_count s)%nat then None else decimal_reading s.

(** Truthiness of a string. *)
Definition nonempty (s : string) : bool := negb (s =? "").

(** ** Exceptions, output and external operations *)

Inductive exn : Type :=
| FileNotFoundError (filename : string)      (* an [OSError], alias [IOError] *)
| ValueError (msg : string)
| AxisError                                  (* numpy; a [ValueError] and an [IndexError] *)
| OverflowError
| UnboundLocalError (name : string)          (* a [NameError] *)
| AssertionError (msg : string)
| AttributeError (msg : string)
| ReError (pattern : string)                 (* [re.error] *)
| ClientError (what : string).               (* botocore *)

(** [isinstance(e, ValueError)], as [except ValueError] decides it. *)
Definition is_ValueError (e : exn) : bool :=
  match e with
  | ValueError _ | AxisError => true
  | _ => false
  end.

(** [isinstance(e, NameError)]. *)
Definition is_NameError (e : exn) : bool :=
  match e with
  | UnboundLocalError _ => true
  | _ => false
  end.

(** [isinstance(e, IOError)]. *)
Definition is_IOError (e : exn) : bool :=
  match e with
  | FileNotFoundError _ => true
  | _ => false
  end.

(** What the program does to the outside: opening and reading local files,
    listing a bucket under a prefix, reading the metadata of one object. *)
Inductive event : Type :=
| EvOpen (filename : string)
| EvRead (filename : string) (size : Z)
| EvList (bucket prefix : string)
| EvHead (bucket key : string).

Record state : Type := State {
  stdout : list string;    (* the lines printed, oldest first *)
  events : list event      (* the external operations, oldest first *)
}.

Definition state0 : state := State [] [].

Inductive result (A : Type) : Type :=
| Ok (a : A)
| Raise (e : exn).

Arguments Ok {A} a.
Arguments Raise {A} e.

Definition M (A : Type) : Type := state -> result A * state.

Definition ret {A} (a : A) : M A := fun s => (Ok a, s).

Definition raise {A} (e : exn) : M A := fun s => (Raise e, s).

Definition bind {A B} (c : M A) (k : A -> M B) : M B :=
  fun s =>
    match c s with
    | (Ok a, s') => k a s'
    | (Raise e, s') => (Raise e, s')
    end.

Notation "x <- c ;; k" := (bind c (fun x => k))
  (at level 61, c at next level, right associativity).
Notation "' p <- c ;; k" := (bind c (fun x => let 'p := x in k))
  (at level 61, p pattern, c at next level, right associativity).
Notation "c ;;; k" := (bind c (fun _ => k))
  (at level 61, right associativity).

(** [try: body except <class>: handler]. *)
Definition try_except {A} (body : M A) (catches : exn -> bool) (handler : M A) : M A :=
  fun s =>
    match body s with
    | (Raise e, s') => if catches e then handler s' else (Raise e, s')
    | r => r
    end.

(** [print(line)]. *)
Definition print (line : string) : M unit :=
  fun s => (Ok tt, State (stdout s ++ [line]) (events s)).

Definition emit (ev : event) : M unit :=
  fun s => (Ok tt, State (stdout s) (events s ++ [ev])).

(** [for x in l: body(x)]. *)
Fixpoint for_each {A} (l : list A) (body : A -> M unit) : M unit :=
  match l with
  | [] => ret tt
  | x :: l' => body x ;;; for_each l' body
  end.

(** ** The outside world

    [disk] maps a path to the bytes stored there, [None] when there is
    nothing to open.  [s3] maps a bucket to its objects, each a key with
    the ETag the service reports for it (quoted, as on the wire), [None]
    when the bucket cannot be listed.  [re_valid] and [re_search] stand
    for Python's [re]: whether a pattern compiles, and whether the
    compiled pattern is found somewhere in a string.  [set_order] stands
    for the order in which the interpreter iterates a set of strings,
    which depends on the hashes of the process: it is asked for an order
    of the distinct elements. *)
Record world : Type := World {
  disk : string -> option bytes;
  s3 : string -> option (list (string * string));
  re_valid : string -> bool;
  re_search : string -> string -> bool;
  set_order : list string -> list string
}.

(** A [bytes] object holds fewer than [2 ^ 63 - 33] bytes: the size is a
    C [ssize_t], and the object has a header of 33 bytes. *)
Definition bytes_max : Z := 2 ^ 63 - 33.

(** The content of the file at a path, [None] when there is no file to
    open.  No file holds [bytes_max] bytes or more: the offsets of a file
    are below [2 ^ 63], and file systems stop far earlier; an entry of
    [disk] of that size is not a file. *)
Definition files (w : world) (filename : string) : option bytes :=
  match disk w filename with
  | Some content =>
      if (Z.of_nat (List.length content) <? bytes_max)%Z then Some content else None
  | None => None
  end.

(** ** Reading a local file *)

(** [open(filename, "rb")]: the handle is modelled by the bytes not read
    yet. *)
Definition py_open (w : world) (filename : string) : M bytes :=
  emit (EvOpen filename) ;;;
  match files w filename with
  | Some content => ret content
  | None => raise (FileNotFoundError filename)
  end.

Fixpoint take (n : Z) (l : bytes) : bytes :=
  match l with
  | [] => []
  | x :: l' => if (n <=? 0)%Z then [] else x :: take (n - 1) l'
  end.

Fixpoint drop (n : Z) (l : bytes) : bytes :=
  match l with
  | [] => []
  | _ :: l' => if (n <=? 0)%Z then l else drop (n - 1) l'
  end.

(** [f.read(size)] on a buffered binary file: the next [size] bytes, fewer
    at the end of the file; everything left when [size] is [-1].  The
    size is converted to a C [ssize_t], which is an [OverflowError]
    outside 64 bits; below [-1] the call is a [ValueError]; and the
    buffer of [size] bytes that the call asks for is an [OverflowError]
    from [bytes_max] on.  Memory is taken to suffice for the buffers
    below that.  The result is the data and the new handle. *)
Definition f_read (filename : string) (size : Z) (rest : bytes) : M (bytes * bytes) :=
  emit (EvRead filename size) ;;;
  if ((size <? - 2 ^ 63) || (2 ^ 63 <=? size))%Z then raise OverflowError
  else if (size <? -1)%Z then raise (ValueError "read length must be non-negative or -1")
  else if (size =? -1)%Z then ret (rest, [])
  else if (bytes_max <=? size)%Z then raise OverflowError
  else ret (take size rest, drop size rest).

(** [for data in iter(lambda: f.read(size), b""): acc = body(acc, data)].
    The loop ends at the first empty read.  [fuel] bounds the number of
    iterations; the callers give one more than the number of bytes of the
    file, which the loop never exhausts (see [for_iter_read_chunks]). *)
Fixpoint for_iter_read {T} (fuel : nat) (filename : string) (size : Z) (rest : bytes)
    (body : T -> bytes -> T) (acc : T) : M T :=
  match fuel with
  | O => ret acc
  | S fuel' =>
      ' (data, rest') <- f_read filename size rest ;;
      match data with
      | [] => ret acc
      | _ :: _ => for_iter_read fuel' filename size rest' body (body acc data)
      end
  end.

(** A [hashlib.md5] object is the bytes fed to it so far: [update]
    appends, [digest] and [hexdigest] hash what was fed. *)
Definition md5_obj : Type := bytes.
Definition md5_new (data : bytes) : md5_obj := data.
Definition md5_update (m : md5_obj) (data : bytes) : md5_obj := (m ++ data)%list.
Definition md5_digest (m : md5_obj) : bytes := MD5.digest m.
Definition md5_hexdigest (m : md5_obj) : string := MD5.hexdigest m.

(** ** [core.py] *)

Definition md5_checksum (w : world) (filename : string) : M string :=
  let m := md5_new [] in
  f <- py_open w filename ;;
  m <- for_iter_read (S (List.length f)) filename (1024 * 1024) f md5_update m ;;
  ret (md5_hexdigest m).

Definition default_chunk_size : Z := 8 * 1024 ^ 2.

Definition etag_checksum (w : world) (filename : string) (chunk_size : Z) : M string :=
  f <- py_open w filename ;;
  md5s <- for_iter_read (S (List.length f)) filename chunk_size f
            (fun md5s data => (md5s ++ [md5_digest (md5_new data)])%list) [] ;;
  let m := md5_new (List.concat md5s) in
  ret (if (1 <? List.length md5s)%nat
       then md5_hexdigest m ++ "-" ++ str_of_Z (Z.of_nat (List.length md5s))
       else md5_hexdigest m).

(** The local variable [a] is bound by neither branch for another mode;
    reading it then raises [UnboundLocalError]. *)
Definition etag_compare (w : world) (filename etag mode : string) (chunk_size : Z)
    : M (bool * string * string) :=
  let et := strip dquote etag in
  a <- (if mode =? "etag" then
          x <- etag_checksum w filename chunk_size ;; ret (Some x)
        else if mode =? "md5" then
          x <- md5_checksum w filename ;; ret (Some x)
        else ret None) ;;
  match a with
  | None => raise (UnboundLocalError "a")
  | Some a => if et =? a then ret (true, a, et) else ret (false, a, et)
  end.

(** *** The remote resolver

    [bucket] and [key] are a string, a list of strings or [None];
    [pattern] is moreover allowed to be a compiled regular expression,
    which is kept as its source text. *)
Inductive str_or_list : Type :=
| NoneArg
| StrArg (s : string)
| ListArg (l : list string).

Inductive pattern : Type :=
| PNone
| PStr (s : string)
| PList (l : list string)
| PCompiled (src : string).

Definition truthy_arg (a : str_or_list) : bool :=
  match a with
  | NoneArg => false
  | StrArg s => nonempty s
  | ListArg l => negb (Nat.eqb (List.length l) 0)
  end.

Definition truthy_pattern (p : pattern) : bool :=
  match p with
  | PNone => false
  | PStr s => nonempty s
  | PList l => negb (Nat.eqb (List.length l) 0)
  | PCompiled _ => true
  end.

(** [re.compile(src)]. *)
Definition re_compile (w : world) (src : string) : M pattern :=
  if re_valid w src then ret (PCompiled src) else raise (ReError src).

(** The truth value of [pattern.search(s)]; only a compiled pattern has
    the method. *)
Definition pattern_search (w : world) (p : pattern) (s : string) : M bool :=
  match p with
  | PCompiled src => ret (re_search w src s)
  | _ => raise (AttributeError "search")
  end.

(** [for x in l: acc = body(acc, x)]. *)
Fixpoint for_fold {A T} (l : list A) (body : T -> A -> M T) (acc : T) : M T :=
  match l with
  | [] => ret acc
  | x :: l' => acc' <- body acc x ;; for_fold l' body acc'
  end.

(** [bucket_s3.objects.filter(Prefix=key)] lists the objects whose key
    starts with [key]. *)
Definition get_objects (w : world) (bucket key : string) (pattern : pattern)
    : M (list string) :=
  emit (EvList bucket key) ;;;
  match s3 w bucket with
  | None => raise (ClientError bucket)
  | Some objs =>
      for_fold (filter (fun obj => String.prefix key (fst obj)) objs)
        (fun k obj =>
           hit <- (if negb (truthy_pattern pattern) then ret (nonempty (fst obj))
                   else pattern_search w pattern (fst obj)) ;;
           if hit then ret (k ++ [fst obj])%list else ret k)
        []
  end.

Definition get_object_etag (w : world) (bucket key : string) : M (string * string) :=
  emit (EvHead bucket key) ;;;
  match s3 w bucket with
  | None => raise (ClientError bucket)
  | Some objs =>
      match find (fun obj => fst obj =? key) objs with
      | Some obj => ret (strip dquote (snd obj), fst obj)
      | None => raise (ClientError key)
      end
  end.

(** What [get_etags_from_s3uri] returns: a list of pairs, or a string. *)
Inductive etags : Type :=
| EtagList (l : list (string * string))
| EtagStr (s : string).


Definition get_etags_from_s3uri (w : world) (bucket key : string) (pattern : pattern)
    : M etags :=
  k <- get_objects w bucket key pattern ;;
  et <- for_fold k (fun et i => x <- get_object_etag w bucket i ;; ret (et ++ [x])%list) [] ;;
  ret (match et with
       | [] => EtagStr ""
       | _ :: _ => EtagList et
       end).

(** [for S3URI_etag, S3URI_key in x]: the pairs of [x]; a character of a
    string does not unpack into two names. *)
Definition etags_pairs (x : etags) : M (list (string * string)) :=
  match x with
  | EtagList l => ret l
  | EtagStr EmptyString => ret []
  | EtagStr (String _ _) => raise (ValueError "not enough values to unpack")
  end.

Definition as_list (a : str_or_list) : list string :=
  match a with
  | NoneArg => []
  | StrArg s => [s]
  | ListArg l => l
  end.

Definition py_assert (cond : bool) (msg : string) : M unit :=
  if cond then ret tt else raise (AssertionError msg).

Definition retrieve_s3uri_etag (w : world) (bucket key : str_or_list) (pattern : pattern)
    : M (list (string * string)) :=
  py_assert (truthy_arg bucket) "Missing Bucket name!" ;;;
  py_assert (truthy_arg key) "Missing Key!" ;;;
  let bucket := as_list bucket in
  let key := as_list key in
  pattern <- match pattern with
             | PList l => re_compile w (join "|" l)
             | _ => ret pattern
             end ;;
  let kwargs := if truthy_pattern pattern then pattern else PNone in
  for_fold bucket
    (fun data Bucket =>
       for_fold key
         (fun data Key =>
            S3URI_data <- get_etags_from_s3uri w Bucket Key kwargs ;;
            pairs <- etags_pairs S3URI_data ;;
            ret (data ++ pairs)%list)
         data)
    [].

(** *** numpy, as far as [check_hashes] uses it

    [np.array(hashes)] is a two-column array of fixed-width strings, as
    wide as the longest string of the batch (one character at least).
    [np.insert] converts the inserted values to that type, which cuts
    them to the width, and rejects a batch without rows: an empty list is
    a one-dimensional array, which has no axis 1. *)
Definition np_itemsize (hashes : list (string * string)) : nat :=
  fold_right
    (fun p n => Nat.max (String.length (fst p)) (Nat.max (String.length (snd p)) n))
    1%nat hashes.

Definition np_cast (width : nat) (s : string) : string := substring 0 width s.

(** The rows of [np.insert(np.array(hashes), 2, values, axis=1).T], where
    [values] is a column of strings: the expected digests, the
    identifiers, then one constant row for each inserted value. *)
Definition np_insert_T (hashes : list (string * string)) (values : list string)
    : M (list (list string)) :=
  match hashes with
  | [] => raise AxisError
  | _ :: _ =>
      let width := np_itemsize hashes in
      ret ([map fst hashes; map snd hashes]
           ++ map (fun v => repeat (np_cast width v) (List.length hashes)) values)%list
  end.

(** [str(x)] of the chunk size, as [np.array([mode, chunk_size])] and the
    conversion to strings render it. *)
Definition py_str (chunk_size : option Z) : string :=
  match chunk_size with
  | None => "None"
  | Some z => str_of_Z z
  end.

Definition unpack3 {A} (l : list A) : M (A * A * A) :=
  match l with
  | [x; y; z] => ret (x, y, z)
  | _ => raise (ValueError "unpack")
  end.

Definition unpack4 {A} (l : list A) : M (A * A * A * A) :=
  match l with
  | [x; y; z; t] => ret (x, y, z, t)
  | _ => raise (ValueError "unpack")
  end.

Definition in_int64 (z : Z) : bool := ((- 2 ^ 63 <=? z) && (z <? 2 ^ 63))%Z.

(** [col.astype(int)]: every string is read as a decimal integer of 64
    bits; an invalid literal is a [ValueError], a number that does not
    fit an [OverflowError]. *)
Definition np_astype_int (col : list string) : M (list Z) :=
  for_fold col
    (fun acc s =>
       match int_of_str s with
       | None => raise (ValueError "invalid literal for int() with base 10")
       | Some z =>
           if in_int64 z then ret (acc ++ [z])%list else raise OverflowError
       end)
    [].

(** [map(f, la, lb, lc)] and [map(f, la, lb, lc, ld)]: lazy, so the
    elements are computations that run when the iterator is advanced. *)
Definition py_map3 {A B C R} (f : A -> B -> C -> R)
    (la : list A) (lb : list B) (lc : list C) : list R :=
  map (fun '(x, y, z) => f x y z) (combine (combine la lb) lc).

Definition py_map4 {A B C D R} (f : A -> B -> C -> D -> R)
    (la : list A) (lb : list B) (lc : list C) (ld : list D) : list R :=
  map (fun '(x, y, z, t) => f x y z t) (combine (combine (combine la lb) lc) ld).

(** [for r, v, el in zip(res, lb, lc): body(r, v, el)], where [res] is
    lazy: [zip] advances [res] first, which runs the computation, and only
    then the other two. *)
Fixpoint for_zip3 {A B C} (res : list (M A)) (lb : list B) (lc : list C)
    (body : A -> B -> C -> M unit) : M unit :=
  match res with
  | [] => ret tt
  | r :: res' =>
      x <- r ;;
      match lb, lc with
      | v :: lb', el :: lc' => body x v el ;;; for_zip3 res' lb' lc' body
      | _, _ => ret tt
      end
  end.

(** Whether two lists hold the same elements the same number of times. *)
Definition same_elements (l1 l2 : list string) : bool :=
  forallb (fun x => Nat.eqb (count_occ string_dec l1 x) (count_occ string_dec l2 x))
    (l1 ++ l2)%list.

(** [set(l)], as the loop over it sees it: the distinct elements of [l],
    in the order of the interpreter.  An answer of [set_order] that is
    not an order of these elements is not taken. *)
Definition py_set (w : world) (l : list string) : list string :=
  let distinct := nodup string_dec l in
  let ordered := set_order w distinct in
  if same_elements ordered distinct then ordered else distinct.

(** The body of the local loop of [check_hashes]. *)
Definition report_local (mode : string) (r : bool * string * string) (v el : string)
    : M unit :=
  print ("Comparing " ++ mode ++ "s for " ++ el ++ " ...") ;;;
  let '(val, a, et) := r in
  if val then print (join tab [v; el; "Ok!"])
  else print (join tab [v; el; "-->"; a; "NO MATCH!"]).

(** The body of the remote loop of [check_hashes]. *)
Definition report_remote (w : world) (data : list (string * string))
    (entry : string * string) : M unit :=
  let '(e, i) := entry in
  let S3URI_etag := map fst (filter (fun nm => contains i (snd nm)) data) in
  let S3URI_etag := py_set w S3URI_etag in
  match S3URI_etag with
  | _ :: _ =>
      for_each S3URI_etag
        (fun et =>
           if et =? e then print (join tab [e; i; "Ok!"])
           else print (join tab [e; i; "-->"; et; "NO MATCH!"]))
  | [] => print (i ++ " not found!")
  end.

(** The pattern that the remote branch of [check_hashes] hands to
    [retrieve_s3uri_etag]: the caller's, or one made of the identifiers of
    the batch. *)
Definition batch_pattern (w : world) (hashes : list (string * string)) (p : pattern)
    : M pattern :=
  if negb (truthy_pattern p)
  then re_compile w (join "|" (map snd hashes))
  else ret p.

Definition check_hashes (w : world) (hashes : list (string * string)) (mode : string)
    (chunk_size : option Z) (bucket key : str_or_list) (pattern : pattern) : M unit :=
  if (mode =? "etag") || (mode =? "md5") then
    ' (e, i, res) <-
      try_except
        (rows <- np_insert_T hashes [mode; py_str chunk_size] ;;
         ' (e, i, m, cs) <- unpack4 rows ;;
         cs <- np_astype_int cs ;;
         ret (e, i, py_map4 (etag_compare w) i e m cs))
        is_ValueError
        (rows <- np_insert_T hashes [mode] ;;
         ' (e, i, m) <- unpack3 rows ;;
         ret (e, i, py_map3 (fun i e m => etag_compare w i e m default_chunk_size) i e m)) ;;
    for_zip3 res e i (report_local mode)
  else if mode =? "s3uri" then
    pattern <- batch_pattern w hashes pattern ;;
    data <- retrieve_s3uri_etag w bucket key pattern ;;
    for_each hashes (report_remote w data)
  else
    print ("Mode '" ++ mode ++ "' not recognized!").

(** Running a computation from a state. *)
Definition run {A} (c : M A) (s : state) : result A * state := c s.

(** ** Specification-side definitions *)

(** The data that [iter(lambda: f.read(size), b"")] yields on a handle
    with [rest] left, for [size >= 0]: a pure reading of the loop of
    [for_iter_read], with the same bound. *)
Fixpoint split_chunks (fuel : nat) (size : Z) (rest : bytes) : list bytes :=
  match fuel with
  | O => []
  | S fuel' =>
      match take size rest with
      | [] => []
      | data => data :: split_chunks fuel' size (drop size rest)
      end
  end.

(** [ceil(a / b)] for [b > 0]. *)
Definition ceil_div (a b : Z) : Z := (a + b - 1) / b.

(** [n] copies of a character. *)
Fixpoint replicate (n : nat) (c : ascii) : string :=
  match n with
  | O => EmptyString
  | S k => String c (replicate k c)
  end.

(** The lines that [report_remote] prints for an entry. *)
Definition remote_lines (w : world) (data : list (string * string))
    (entry : string * string) : list string :=
  let '(e, i) := entry in
  match py_set w (map fst (filter (fun nm => contains i (snd nm)) data)) with
  | [] => [i ++ " not found!"]
  | found =>
      map (fun et => if et =? e then join tab [e; i; "Ok!"]
                     else join tab [e; i; "-->"; et; "NO MATCH!"]) found
  end.

(** The chunk size that the calls of [etag_compare] receive in the local
    branch of [check_hashes]: the decimal text of [chunk_size], cut to the
    width of the array and read back as an integer; the default of
    [etag_compare] when that text is not a number, as for [None]. *)
Definition np_chunk_size (hashes : list (string * string)) (chunk_size : option Z)
    : result Z :=
  match int_of_str (np_cast (np_itemsize hashes) (py_str chunk_size)) with
  | None => Ok default_chunk_size
  | Some z => if in_int64 z then Ok z else Raise OverflowError
  end.

(** What the local branch of [check_hashes] does for one entry: compare,
    then report. *)
Definition local_entry (w : world) (mode m : string) (chunk_size : Z)
    (entry : string * string) : M unit :=
  let '(e, i) := entry in
  r <- etag_compare w i e m chunk_size ;; report_local mode r e i.

Definition is_open_event (ev : event) : bool :=
  match ev with
  | EvOpen _ => true
  | _ => false
  end.

(** *** [argsParser.py]: the chunk size given on the command line

    The argument is a Python string, a sequence of code points.
    [decimal] stands for the Unicode database of the interpreter: the
    value of a code point that is a decimal digit, [None] for the other
    code points.  These are the characters that [\d] matches and that
    [int] reads as digits; below U+0080 they are [0] to [9]. *)
Definition ustring : Type := list N.

Definition ustr (s : string) : ustring := map N_of_ascii (list_ascii_of_string s).

Definition unicode_table (decimal : N -> option N) : Prop :=
  (forall c v, decimal c = Some v -> (v < 10)%N) /\
  (forall c, (c < 128)%N ->
     decimal c = if ((48 <=? c) && (c <=? 57))%N then Some (c - 48)%N else None).

Definition is_decimal (decimal : N -> option N) (c : N) : bool :=
  match decimal c with
  | Some _ => true
  | None => false
  end.

Definition is_ascii_digit (c : ascii) : bool :=
  Nat.leb 48 (nat_of_ascii c) && Nat.leb (nat_of_ascii c) 57.

(** The longest prefix of digits, and what follows it. *)
Fixpoint span_digits (decimal : N -> option N) (s : ustring) : ustring * ustring :=
  match s with
  | [] => ([], [])
  | c :: s' =>
      if is_decimal decimal c
      then let '(digits, rest) := span_digits decimal s' in (c :: digits, rest)
      else ([], s)
  end.

Definition ustring_eqb (a b : ustring) : bool :=
  if list_eq_dec N.eq_dec a b then true else false.

(** The table [convert_literals]; [None] is a [KeyError], which the
    pattern excludes. *)
Definition convert_literals (suffix : string) : option Z :=
  if suffix =? "" then Some (1024 ^ 0)%Z
  else if suffix =? "KB" then Some (1024 ^ 1)%Z
  else if suffix =? "MB" then Some (1024 ^ 2)%Z
  else if suffix =? "GB" then Some (1024 ^ 3)%Z
  else if suffix =? "TB" then Some (1024 ^ 4)%Z
  else None.

(** What [([KMGT]B)?] followed by the end of the string matches. *)
Definition match_suffix (rest : ustring) : option string :=
  if ustring_eqb rest (ustr "") then Some ""
  else if ustring_eqb rest (ustr "KB") then Some "KB"
  else if ustring_eqb rest (ustr "MB") then Some "MB"
  else if ustring_eqb rest (ustr "GB") then Some "GB"
  else if ustring_eqb rest (ustr "TB") then Some "TB"
  else None.

(** [re.fullmatch(r"(\d+)([KMGT]B)?", chunksize)]: the two groups, the
    second one [""] when it takes no part in the match.  The digits are
    the longest prefix of digits, since what follows the first group
    starts with a letter or is the end of the string. *)
Definition fullmatch_chunksize (decimal : N -> option N) (chunksize : ustring)
    : option (ustring * string) :=
  let '(digits, rest) := span_digits decimal chunksize in
  match digits, match_suffix rest with
  | _ :: _, Some suffix => Some (digits, suffix)
  | _, _ => None
  end.

(** The ASCII digits that [int] reads for a run of decimal digits. *)
Definition digit_char (v : N) : ascii := ascii_of_N (48 + v).

Definition ascii_digits (decimal : N -> option N) (digits : ustring) : string :=
  string_of_list_ascii
    (map (fun c => digit_char (match decimal c with Some v => v | None => 0%N end)) digits).

(** The exceptions of [validate_chunks]: its own [ValueError], which
    quotes the argument; the [ValueError] of [int]; the [KeyError] of the
    table. *)
Inductive args_exn : Type :=
| InvalidChunkSize (chunksize : ustring)
| IntValueError
| ArgKeyError (key : string).

Definition validate_chunks (decimal : N -> option N) (chunksize : ustring)
    : Z + args_exn :=
  match fullmatch_chunksize decimal chunksize with
  | None => inr (InvalidChunkSize chunksize)
  | Some (digits, suffix) =>
      match convert_literals suffix with
      | None => inr (ArgKeyError suffix)
      | Some size =>
          match int_of_str (ascii_digits decimal digits) with
          | None => inr IntValueError
          | Some n => inl (n * size)%Z
          end
      end
  end.

(** A table for the examples: [0] to [9] and the Arabic-Indic digits. *)
Definition sample_decimal (c : N) : option N :=
  if ((48 <=? c) && (c <=? 57))%N then Some (c - 48)%N
  else if ((1632 <=? c) && (c <=? 1641))%N then Some (c - 1632)%N
  else None.

(** The digest of [etag_checksum] as a function of the content, for a
    chunk size that is not negative. *)
Definition etag_digest (chunk_size : Z) (content : bytes) : string :=
  let md5s := map MD5.digest (split_chunks (S (List.length content)) chunk_size content) in
  if (1 <? List.length md5s)%nat
  then MD5.hexdigest (List.concat md5s) ++ "-" ++ str_of_Z (Z.of_nat (List.length md5s))
  else MD5.hexdigest (List.concat md5s).

(** The digest function that [etag_compare] calls for a mode; [None] for
    a mode that it does not know. *)
Definition mode_digest (w : world) (filename mode : string) (chunk_size : Z)
    : option (M string) :=
  if mode =? "etag" then Some (etag_checksum w filename chunk_size)
  else if mode =? "md5" then Some (md5_checksum w filename)
  else None.

(** The digest that [etag_compare] computes in a local mode. *)
Definition local_digest (mode : string) (chunk_size : Z) (content : bytes) : string :=
  if mode =? "etag" then etag_digest chunk_size content else MD5.hexdigest content.

(** The two lines that the local branch of [check_hashes] prints for an
    entry whose file holds [content]. *)
Definition local_lines (w : world) (mode : string) (chunk_size : Z)
    (entry : string * string) : list string :=
  let '(e, i) := entry in
  match files w i with
  | None => []
  | Some content =>
      let a := local_digest mode chunk_size content in
      ["Comparing " ++ mode ++ "s for " ++ i ++ " ...";
       if strip dquote e =? a then join tab [e; i; "Ok!"]
       else join tab [e; i; "-->"; a; "NO MATCH!"]]
  end.

Definition is_file_event (ev : event) : bool :=
  match ev with
  | EvOpen _ | EvRead _ _ => true
  | _ => false
  end.

Definition is_remote_event (ev : event) : bool :=
  match ev with
  | EvList _ _ | EvHead _ _ => true
  | _ => false
  end.

(** A computation that keeps a relation between the state before and the
    state after, however it ends. *)
Definition preserves {A} (R : state -> state -> Prop) (c : M A) : Prop :=
  forall s, R s (snd (c s)).

(** The log grows by operations of one kind only; nothing is printed. *)
Definition only_events (P : event -> bool) (s s' : state) : Prop :=
  exists evs, events s' = (events s ++ evs)%list /\ forallb P evs = true.

Definition same_stdout (s s' : state) : Prop := stdout s' = stdout s.

Definition emits_only {A} (P : event -> bool) (c : M A) : Prop :=
  preserves (only_events P) c.

Definition silent {A} (c : M A) : Prop := preserves same_stdout c.

(** Whether the resolver selects an object: its key starts with the
    prefix, and is not empty when there is no pattern, or is found by
    the compiled pattern. *)
Definition selected (w : world) (key : string) (p : pattern) (obj : string * string)
    : bool :=
  String.prefix key (fst obj) &&
  match p with
  | PCompiled src => re_search w src (fst obj)
  | _ => nonempty (fst obj)
  end.

(** The characters of a hex digest. *)
Definition is_hex_char (c : ascii) : bool :=
  match index 0 (String c EmptyString) "0123456789abcdef" with
  | Some _ => true
  | None => false
  end.

Fixpoint string_forallb (f : ascii -> bool) (s : string) : bool :=
  match s with
  | EmptyString => true
  | String c s' => f c && string_forallb f s'
  end.

(** The pair that the resolver returns for an object, and the value of
    [et if et else ""]. *)
Definition object_pair (obj : string * string) : string * string :=
  (strip dquote (snd obj), fst obj).

Definition etags_or_empty (et : list (string * string)) : etags :=
  match et with
  | [] => EtagStr ""
  | _ :: _ => EtagList et
  end.

(** The pairs resolved in a bucket whose objects are [objs]. *)
Definition resolved (w : world) (key : string) (p : pattern)
    (objs : list (string * string)) : list (string * string) :=
  map object_pair (filter (selected w key p) objs).

(** The number of files opened in a log. *)
Definition count_opens (evs : list event) : nat :=
  List.length (filter is_open_event evs).

(** Example worlds. *)
Definition local_world : world :=
  World (fun f => if f =? "a.txt" then Some (bstr "a")
                  else if f =? "ten.bin" then Some (bstr "0123456789")
                  else if f =? "empty" then Some []
                  else None)
        (fun _ => None) (fun _ => true) (fun _ _ => false) (fun l => l).

Definition remote_world : world :=
  World (fun _ => None)
        (fun bucket =>
           if bucket =? "bk"
           then Some [("dir/x.bin", String dquote ("abc" ++ String dquote ""));
                      ("dir/y.bin", "q-2")]
           else None)
        (fun _ => true)
        (fun p s => contains "x.bin" s)
        (fun l => rev l).

(** * Properties *)

(** ** MD5 on the test suite of RFC 1321 *)

Example md5_empty : MD5.hexdigest (bstr "") = "d41d8cd98f00b204e9800998ecf8427e".
Proof. vm_compute. reflexivity. Qed.

Example md5_a : MD5.hexdigest (bstr "a") = "0cc175b9c0f1b6a831c399e269772661".
Proof. vm_compute. reflexivity. Qed.

Example md5_abc : MD5.hexdigest (bstr "abc") = "900150983cd24fb0d6963f7d28e17f72".
Proof. vm_compute. reflexivity. Qed.

Example md5_message_digest :
  MD5.hexdigest (bstr "message digest") = "f96b697d7cb7938d525a2f31aaf161d0".
Proof. vm_compute. reflexivity. Qed.

Example md5_two_blocks :
  MD5.hexdigest (repeat "a"%byte 70) = "0f5c6c4e740bfcc08c3c26ccb2673d46".
Proof. vm_compute. reflexivity. Qed.

(** ** Reading in chunks *)

Lemma bind_Ok {A B} (c : M A) (k : A -> M B) s a s' :
  c s = (Ok a, s') -> bind c k s = k a s'.
Proof. intros H. unfold bind. now rewrite H. Qed.

Lemma bind_Raise {A B} (c : M A) (k : A -> M B) s e s' :
  c s = (Raise e, s') -> bind c k s = (Raise e, s').
Proof. intros H. unfold bind. now rewrite H. Qed.


Lemma take_drop n l : (take n l ++ drop n l)%list = l.
Proof.
  revert n; induction l as [|x l IH]; intros n; simpl; [reflexivity|].
  destruct (n <=? 0)%Z; simpl; [reflexivity|]. now rewrite IH.
Qed.

Lemma take_nil n l : take n l = [] <-> l = [] \/ (n <= 0)%Z.
Proof.
  destruct l as [|x l]; simpl.
  - split; auto.
  - destruct (n <=? 0)%Z eqn:E.
    + apply Z.leb_le in E. split; auto.
    + apply Z.leb_gt in E. split; [discriminate|]. intros [H|H]; [discriminate|lia].
Qed.

Lemma length_take n l :
  (0 <= n)%Z -> Z.of_nat (List.length (take n l)) = Z.min n (Z.of_nat (List.length l)).
Proof.
  revert n; induction l as [|x l IH]; intros n Hn; simpl.
  - lia.
  - destruct (n <=? 0)%Z eqn:E.
    + apply Z.leb_le in E. simpl. lia.
    + apply Z.leb_gt in E. cbn [List.length].
      rewrite !Nat2Z.inj_succ, IH by lia. lia.
Qed.

Lemma length_take_drop n l :
  List.length l = (List.length (take n l) + List.length (drop n l))%nat.
Proof. rewrite <- (take_drop n l) at 1. apply length_app. Qed.

Lemma take_all n l : (Z.of_nat (List.length l) <= n)%Z -> take n l = l /\ drop n l = [].
Proof.
  revert n; induction l as [|x l IH]; intros n Hn; simpl; [auto|].
  cbn [List.length] in Hn. rewrite Nat2Z.inj_succ in Hn.
  destruct (n <=? 0)%Z eqn:E; [apply Z.leb_le in E; lia|].
  destruct (IH (n - 1)%Z) as [-> ->]; [lia|auto].
Qed.

Lemma split_chunks_nil fuel size : split_chunks fuel size [] = [].
Proof. destruct fuel; reflexivity. Qed.

Lemma fold_left_snoc_map {A B} (f : A -> B) (l : list A) (acc : list B) :
  fold_left (fun acc x => (acc ++ [f x])%list) l acc = (acc ++ map f l)%list.
Proof.
  revert acc; induction l as [|x l IH]; intros acc; simpl.
  - now rewrite app_nil_r.
  - rewrite IH, <- app_assoc. reflexivity.
Qed.

Lemma fold_left_update (l : list bytes) (acc : md5_obj) :
  fold_left md5_update l acc = (acc ++ List.concat l)%list.
Proof.
  revert acc; induction l as [|x l IH]; intros acc; simpl.
  - now rewrite app_nil_r.
  - rewrite IH. unfold md5_update. now rewrite app_assoc.
Qed.

(** The loop never runs out of fuel: with more fuel than bytes left it
    folds [body] over the chunks and stops at the first empty read, one
    read after the last chunk. *)
Lemma f_read_in_range filename size rest s :
  (0 <= size < bytes_max)%Z ->
  f_read filename size rest s =
    (Ok (take size rest, drop size rest),
     State (stdout s) (events s ++ [EvRead filename size])).
Proof.
  intros Hsize. unfold f_read, bind, emit. unfold bytes_max in *.
  assert (H1 : ((size <? - 2 ^ 63) || (2 ^ 63 <=? size))%Z = false).
  { apply orb_false_iff. split; [apply Z.ltb_ge | apply Z.leb_gt]; lia. }
  assert (H2 : (size <? -1)%Z = false) by (apply Z.ltb_ge; lia).
  assert (H3 : (size =? -1)%Z = false) by (apply Z.eqb_neq; lia).
  assert (H4 : (2 ^ 63 - 33 <=? size)%Z = false) by (apply Z.leb_gt; lia).
  rewrite H1, H2, H3, H4. reflexivity.
Qed.

Lemma files_bound w filename content :
  files w filename = Some content -> (Z.of_nat (List.length content) < bytes_max)%Z.
Proof.
  unfold files. destruct (disk w filename) as [c|]; [|discriminate].
  destruct (Z.of_nat (List.length c) <? bytes_max)%Z eqn:E; [|discriminate].
  intros [= <-]. now apply Z.ltb_lt.
Qed.

Lemma for_iter_read_chunks {T} fuel filename size rest (body : T -> bytes -> T) acc s :
  (0 <= size < bytes_max)%Z -> (List.length rest < fuel)%nat ->
  for_iter_read fuel filename size rest body acc s =
    (Ok (fold_left body (split_chunks fuel size rest) acc),
     State (stdout s)
           (events s ++ repeat (EvRead filename size)
                               (S (List.length (split_chunks fuel size rest))))).
Proof.
  intros Hsize. revert rest acc s.
  induction fuel as [|fuel IH]; intros rest acc s Hfuel; [lia|].
  cbn [for_iter_read split_chunks].
  unfold bind at 1. rewrite f_read_in_range by assumption.
  destruct (take size rest) as [|x d] eqn:Etake.
  - unfold ret. reflexivity.
  - assert (Hlen : (List.length (drop size rest) < fuel)%nat).
    { pose proof (length_take_drop size rest) as H. rewrite Etake in H.
      cbn [List.length] in H. lia. }
    rewrite IH by exact Hlen. cbn [fold_left List.length stdout events].
    f_equal. f_equal. rewrite <- app_assoc. reflexivity.
Qed.

Lemma ceil_div_small len size :
  (0 < len)%Z -> (len <= size)%Z -> ceil_div len size = 1%Z.
Proof.
  intros H1 H2. unfold ceil_div. symmetry.
  apply (Z.div_unique _ _ 1%Z (len - 1)%Z); lia.
Qed.

Lemma ceil_div_zero size : (0 < size)%Z -> ceil_div 0 size = 0%Z.
Proof. intros H. unfold ceil_div. apply Z.div_small. lia. Qed.

Lemma ceil_div_step len size :
  (0 < size)%Z -> ceil_div len size = (1 + ceil_div (len - size) size)%Z.
Proof.
  intros H. unfold ceil_div.
  replace (len + size - 1)%Z with ((len - size + size - 1) + 1 * size)%Z by lia.
  rewrite Z.div_add by lia. lia.
Qed.

(** For a positive size the chunks are consecutive pieces of the file:
    all of [size] bytes but the last, which is not empty, and
    [ceil(length / size)] of them. *)
Lemma split_chunks_spec fuel size rest :
  (0 < size)%Z -> (List.length rest < fuel)%nat ->
  let parts := split_chunks fuel size rest in
  List.concat parts = rest /\
  Forall (fun p => Z.of_nat (List.length p) = size) (removelast parts) /\
  (rest <> [] ->
   parts <> [] /\ (0 < Z.of_nat (List.length (last parts [])) <= size)%Z) /\
  Z.of_nat (List.length parts) = ceil_div (Z.of_nat (List.length rest)) size.
Proof.
  intros Hsize. revert rest.
  induction fuel as [|fuel IH]; intros rest Hfuel; [lia|].
  cbn [split_chunks].
  destruct (take size rest) as [|x d] eqn:Etake.
  - apply take_nil in Etake. destruct Etake as [-> | ?]; [|lia].
    cbn. repeat split; try constructor; try congruence.
    now rewrite ceil_div_zero.
  - pose proof (take_drop size rest) as Happ.
    pose proof (length_take size rest ltac:(lia)) as Hlt.
    pose proof (length_take_drop size rest) as Hsum.
    rewrite Etake in Happ, Hlt, Hsum.
    assert (Hfuel' : (List.length (drop size rest) < fuel)%nat).
    { cbn [List.length] in Hsum. lia. }
    specialize (IH (drop size rest) Hfuel').
    cbv zeta in IH. destruct IH as (Hcat & Hall & Hlast & Hcount).
    set (parts' := split_chunks fuel size (drop size rest)) in *.
    assert (Hnil : drop size rest = [] -> parts' = []).
    { intros E. unfold parts'. rewrite E. apply split_chunks_nil. }
    cbv zeta. repeat split.
    + cbn [List.concat]. rewrite Hcat. exact Happ.
    + destruct parts' as [|p ps] eqn:Ep; [constructor|].
      change (removelast ((x :: d) :: p :: ps))
        with ((x :: d) :: removelast (p :: ps)).
      constructor; [|exact Hall].
      destruct (drop size rest) as [|y r] eqn:Ed; [now specialize (Hnil eq_refl)|].
      cbn [List.length] in Hsum, Hlt |- *. lia.
    + discriminate.
    + destruct parts' as [|p ps] eqn:Ep; [cbn [last List.length]; lia|].
      change (last ((x :: d) :: p :: ps) []) with (last (p :: ps) []).
      apply Hlast. intros E. now specialize (Hnil E).
    + destruct parts' as [|p ps] eqn:Ep; [cbn [last List.length] in *; lia|].
      change (last ((x :: d) :: p :: ps) []) with (last (p :: ps) []).
      apply Hlast. intros E. now specialize (Hnil E).
    + cbn [List.length] in Hsum, Hlt |- *. rewrite Nat2Z.inj_succ, Hcount.
      destruct (Z.le_gt_cases (Z.of_nat (List.length rest)) size) as [Hle | Hgt].
      * replace (Z.of_nat (List.length (drop size rest))) with 0%Z by lia.
        rewrite ceil_div_zero, ceil_div_small by lia. lia.
      * rewrite (ceil_div_step (Z.of_nat (List.length rest))) by lia.
        replace (Z.of_nat (List.length (drop size rest)))
          with (Z.of_nat (List.length rest) - size)%Z by lia.
        lia.
Qed.

Lemma split_chunks_one fuel size rest :
  rest <> [] -> (Z.of_nat (List.length rest) <= size)%Z -> (List.length rest < fuel)%nat ->
  split_chunks fuel size rest = [rest].
Proof.
  intros Hne Hle Hfuel. destruct fuel as [|fuel]; [lia|].
  cbn [split_chunks]. destruct (take_all size rest Hle) as [-> ->].
  destruct rest; [congruence|]. now rewrite split_chunks_nil.
Qed.

Lemma split_chunks_zero fuel rest : split_chunks fuel 0 rest = [].
Proof.
  destruct fuel as [|fuel]; [reflexivity|]. cbn [split_chunks].
  assert (E : take 0 rest = []) by (apply take_nil; right; lia).
  now rewrite E.
Qed.

(** ** The two digests *)

Lemma py_open_some w filename content s :
  files w filename = Some content ->
  py_open w filename s = (Ok content, State (stdout s) (events s ++ [EvOpen filename])).
Proof. intros H. unfold py_open, bind, emit, ret. now rewrite H. Qed.

Lemma py_open_none w filename s :
  files w filename = None ->
  py_open w filename s =
    (Raise (FileNotFoundError filename), State (stdout s) (events s ++ [EvOpen filename])).
Proof. intros H. unfold py_open, bind, emit, raise. now rewrite H. Qed.

(** The digest that [etag_checksum] builds from the per-chunk hashes. *)
Lemma etag_checksum_chunks w filename content chunk_size s :
  files w filename = Some content -> (0 <= chunk_size < bytes_max)%Z ->
  let parts := split_chunks (S (List.length content)) chunk_size content in
  let md5s := map MD5.digest parts in
  run (etag_checksum w filename chunk_size) s =
    (Ok (if (1 <? List.length md5s)%nat
         then MD5.hexdigest (List.concat md5s) ++ "-"
              ++ str_of_Z (Z.of_nat (List.length md5s))
         else MD5.hexdigest (List.concat md5s)),
     State (stdout s)
           (events s ++ EvOpen filename
              :: repeat (EvRead filename chunk_size) (S (List.length parts)))).
Proof.
  intros Hf Hcs parts md5s. unfold run, etag_checksum.
  unfold bind at 1. rewrite (py_open_some _ _ _ _ Hf).
  unfold bind at 1. rewrite for_iter_read_chunks by (cbn [stdout events]; lia).
  fold parts. rewrite fold_left_snoc_map. cbn [app stdout events].
  unfold md5_digest, md5_new, md5_hexdigest, ret. fold md5s.
  rewrite <- app_assoc. reflexivity.
Qed.

Lemma md5_checksum_whole w filename content s :
  files w filename = Some content ->
  run (md5_checksum w filename) s =
    (Ok (MD5.hexdigest content),
     State (stdout s)
           (events s ++ EvOpen filename
              :: repeat (EvRead filename 1048576)
                   (S (List.length
                         (split_chunks (S (List.length content)) 1048576 content))))).
Proof.
  intros Hf. unfold run, md5_checksum.
  unfold bind at 1. rewrite (py_open_some _ _ _ _ Hf).
  unfold bind at 1. change (1024 * 1024)%Z with 1048576%Z.
  rewrite for_iter_read_chunks by (unfold bytes_max; cbn [stdout events]; lia).
  rewrite fold_left_update. unfold md5_new, md5_hexdigest, ret. cbn [app stdout events].
  destruct (split_chunks_spec (S (List.length content)) 1048576 content) as (Hcat & _);
    [lia | lia |].
  rewrite Hcat, <- app_assoc. reflexivity.
Qed.

Arguments MD5.digest : simpl never.
Arguments MD5.hexdigest : simpl never.
Arguments str_of_Z : simpl never.

Lemma ceil_div_pos len size : (0 < len)%Z -> (0 < size)%Z -> (1 <= ceil_div len size)%Z.
Proof.
  intros H1 H2. unfold ceil_div.
  apply Z.div_le_lower_bound; lia.
Qed.

(** A file of one chunk: the digest is the hash of the hash of the
    content, since the combined hash is taken over the list of raw
    per-chunk hashes also when the list has one element. *)
Lemma etag_checksum_one_chunk w filename content chunk_size s :
  files w filename = Some content -> content <> [] ->
  (Z.of_nat (List.length content) <= chunk_size < bytes_max)%Z ->
  fst (run (etag_checksum w filename chunk_size) s) =
    Ok (MD5.hexdigest (MD5.digest content)).
Proof.
  intros Hf Hne Hle.
  rewrite (etag_checksum_chunks _ _ _ _ _ Hf) by lia.
  rewrite split_chunks_one by (auto; lia).
  cbn. now rewrite app_nil_r.
Qed.

(** C1.  The code at a file of one byte and the default chunk size: the
    chunked digest is the MD5 of the raw MD5 of the content, and differs
    from the whole-file digest, which the single-part equivalence
    requires it to equal. *)
Theorem etag_checksum_single_part_differs :
  run (etag_checksum local_world "a.txt" default_chunk_size) state0 =
    (Ok "b6ff9a06b7e20bcb2858c5b8ff744aea",
     State [] [EvOpen "a.txt"; EvRead "a.txt" 8388608; EvRead "a.txt" 8388608]) /\
  run (md5_checksum local_world "a.txt") state0 =
    (Ok "0cc175b9c0f1b6a831c399e269772661",
     State [] [EvOpen "a.txt"; EvRead "a.txt" 1048576; EvRead "a.txt" 1048576]) /\
  MD5.hexdigest (MD5.digest (bstr "a")) = "b6ff9a06b7e20bcb2858c5b8ff744aea".
Proof. split; [|split]; vm_compute; reflexivity. Qed.

(** C4, as stated, fails: with a chunk size of zero [etag_checksum]
    returns a digest, the MD5 of the empty byte string, for a file of ten
    bytes. *)
Lemma etag_checksum_zero_chunk_size_returns :
  (0 <= 0)%Z /\
  run (etag_checksum local_world "ten.bin" 0) state0 =
    (Ok "d41d8cd98f00b204e9800998ecf8427e",
     State [] [EvOpen "ten.bin"; EvRead "ten.bin" 0]).
Proof. split; [lia | vm_compute; reflexivity]. Qed.

Lemma f_read_all filename rest s :
  f_read filename (-1) rest s =
    (Ok (rest, []), State (stdout s) (events s ++ [EvRead filename (-1)])).
Proof. reflexivity. Qed.

Lemma f_read_negative filename size rest s :
  (- 2 ^ 63 <= size < -1)%Z ->
  f_read filename size rest s =
    (Raise (ValueError "read length must be non-negative or -1"),
     State (stdout s) (events s ++ [EvRead filename size])).
Proof.
  intros H. unfold f_read, bind, emit.
  assert (H1 : ((size <? - 2 ^ 63) || (2 ^ 63 <=? size))%Z = false).
  { apply orb_false_iff. split; [apply Z.ltb_ge | apply Z.leb_gt]; lia. }
  assert (H2 : (size <? -1)%Z = true) by (apply Z.ltb_lt; lia).
  rewrite H1, H2. reflexivity.
Qed.

Lemma f_read_overflow filename size rest s :
  (size < - 2 ^ 63 \/ bytes_max <= size)%Z ->
  f_read filename size rest s =
    (Raise OverflowError, State (stdout s) (events s ++ [EvRead filename size])).
Proof.
  intros H. unfold f_read, bind, emit. unfold bytes_max in *.
  destruct ((size <? - 2 ^ 63) || (2 ^ 63 <=? size))%Z eqn:H1; [reflexivity|].
  apply orb_false_iff in H1. destruct H1 as [H1 H1'].
  apply Z.ltb_ge in H1. apply Z.leb_gt in H1'.
  assert (H2 : (size <? -1)%Z = false) by (apply Z.ltb_ge; lia).
  assert (H3 : (size =? -1)%Z = false) by (apply Z.eqb_neq; lia).
  assert (H4 : (2 ^ 63 - 33 <=? size)%Z = true) by (apply Z.leb_le; lia).
  rewrite H2, H3, H4. reflexivity.
Qed.

(** The first read of the loop fails: so does the loop. *)
Lemma for_iter_read_raise {T} fuel filename size rest (body : T -> bytes -> T) acc s e s' :
  f_read filename size rest s = (Raise e, s') ->
  for_iter_read (S fuel) filename size rest body acc s = (Raise e, s').
Proof. intros H. cbn [for_iter_read]. unfold bind. now rewrite H. Qed.

(** C4, amended.  [etag_checksum] does not check its chunk size and has
    no error of its own for it.  On a file that opens, a chunk size of
    zero gives the MD5 of the empty byte string whatever the content,
    after one read; a chunk size of [-1] reads the file as one chunk and
    gives the digest that a chunk size as large as the file gives; a
    chunk size below [-1] fails at the first read, with the [ValueError]
    of [read] down to [- 2 ^ 63] and with [OverflowError] below. *)
Theorem etag_checksum_chunk_size_unchecked w filename content s :
  files w filename = Some content ->
  run (etag_checksum w filename 0) s =
    (Ok (MD5.hexdigest []),
     State (stdout s) (events s ++ [EvOpen filename; EvRead filename 0])) /\
  (exists d,
     run (etag_checksum w filename (-1)) s =
       (Ok d,
        State (stdout s)
              (events s ++ EvOpen filename :: EvRead filename (-1)
                 :: match content with
                    | [] => []
                    | _ :: _ => [EvRead filename (-1)]
                    end)) /\
     fst (run (etag_checksum w filename (Z.max 1 (Z.of_nat (List.length content)))) s)
       = Ok d) /\
  (forall chunk_size, (- 2 ^ 63 <= chunk_size < -1)%Z ->
     run (etag_checksum w filename chunk_size) s =
       (Raise (ValueError "read length must be non-negative or -1"),
        State (stdout s) (events s ++ [EvOpen filename; EvRead filename chunk_size]))) /\
  (forall chunk_size, (chunk_size < - 2 ^ 63)%Z ->
     run (etag_checksum w filename chunk_size) s =
       (Raise OverflowError,
        State (stdout s) (events s ++ [EvOpen filename; EvRead filename chunk_size]))).
Proof.
  intros Hf. split; [|split; [|split]].
  - rewrite (etag_checksum_chunks _ _ _ _ _ Hf) by (unfold bytes_max; lia).
    rewrite split_chunks_zero. reflexivity.
  - pose proof (files_bound _ _ _ Hf) as Hbound.
    destruct content as [|x content].
    + exists (MD5.hexdigest []). split.
      * unfold run, etag_checksum. unfold bind at 1. rewrite (py_open_some _ _ _ _ Hf).
        cbn [List.length for_iter_read]. unfold bind at 1 2.
        rewrite f_read_all. cbn [stdout events]. unfold ret.
        rewrite <- app_assoc. reflexivity.
      * rewrite (etag_checksum_chunks _ _ _ _ _ Hf) by (unfold bytes_max; cbn; lia).
        reflexivity.
    + exists (MD5.hexdigest (MD5.digest (x :: content))). split.
      * unfold run, etag_checksum. unfold bind at 1. rewrite (py_open_some _ _ _ _ Hf).
        cbn [List.length for_iter_read]. unfold bind at 1 2.
        rewrite f_read_all. cbn [stdout events]. unfold bind at 1.
        rewrite f_read_all. cbn [stdout events]. unfold ret.
        unfold md5_digest, md5_new, md5_hexdigest.
        cbn [List.length Nat.ltb Nat.leb List.concat app]. rewrite app_nil_r.
        rewrite <- !app_assoc. reflexivity.
      * rewrite Z.max_r by (cbn [List.length]; lia).
        apply (etag_checksum_one_chunk _ _ _ _ _ Hf); [discriminate | lia].
  - intros chunk_size Hc. unfold run, etag_checksum.
    unfold bind at 1. rewrite (py_open_some _ _ _ _ Hf).
    unfold bind at 1. erewrite for_iter_read_raise by (now apply f_read_negative).
    cbn [stdout events]. now rewrite <- app_assoc.
  - intros chunk_size Hc. unfold run, etag_checksum.
    unfold bind at 1. rewrite (py_open_some _ _ _ _ Hf).
    unfold bind at 1. erewrite for_iter_read_raise by (apply f_read_overflow; now left).
    cbn [stdout events]. now rewrite <- app_assoc.
Qed.

Lemma etag_checksum_chunk_size_unchecked_witness :
  files local_world "ten.bin" = Some (bstr "0123456789") /\
  run (etag_checksum local_world "ten.bin" 0) state0 =
    (Ok (MD5.hexdigest []),
     State (stdout state0) (events state0 ++ [EvOpen "ten.bin"; EvRead "ten.bin" 0])) /\
  (exists d,
     run (etag_checksum local_world "ten.bin" (-1)) state0 =
       (Ok d,
        State (stdout state0)
              (events state0 ++ EvOpen "ten.bin" :: EvRead "ten.bin" (-1)
                 :: [EvRead "ten.bin" (-1)])) /\
     fst (run (etag_checksum local_world "ten.bin"
                 (Z.max 1 (Z.of_nat (List.length (bstr "0123456789"))))) state0)
       = Ok d) /\
  (forall chunk_size, (- 2 ^ 63 <= chunk_size < -1)%Z ->
     run (etag_checksum local_world "ten.bin" chunk_size) state0 =
       (Raise (ValueError "read length must be non-negative or -1"),
        State (stdout state0)
              (events state0 ++ [EvOpen "ten.bin"; EvRead "ten.bin" chunk_size]))) /\
  (forall chunk_size, (chunk_size < - 2 ^ 63)%Z ->
     run (etag_checksum local_world "ten.bin" chunk_size) state0 =
       (Raise OverflowError,
        State (stdout state0)
              (events state0 ++ [EvOpen "ten.bin"; EvRead "ten.bin" chunk_size]))).
Proof.
  split; [reflexivity|].
  exact (etag_checksum_chunk_size_unchecked local_world "ten.bin"
           (bstr "0123456789") state0 eq_refl).
Defined.

(** C5.  A file longer than a positive chunk size is cut into
    [ceil(size / chunk_size)] consecutive parts, each of [chunk_size]
    bytes but the last, which is not empty; the result is the hex MD5 of
    the concatenation, in that order, of the raw MD5 of every part, then
    a dash and the number of parts in decimal. *)
Theorem etag_checksum_multipart w filename content chunk_size s :
  files w filename = Some content ->
  (0 < chunk_size)%Z -> (chunk_size < Z.of_nat (List.length content))%Z ->
  exists parts,
    List.concat parts = content /\
    Forall (fun p => Z.of_nat (List.length p) = chunk_size) (removelast parts) /\
    (0 < Z.of_nat (List.length (last parts [])) <= chunk_size)%Z /\
    Z.of_nat (List.length parts) = ceil_div (Z.of_nat (List.length content)) chunk_size /\
    fst (run (etag_checksum w filename chunk_size) s) =
      Ok (MD5.hexdigest (List.concat (map MD5.digest parts)) ++ "-"
          ++ str_of_Z (ceil_div (Z.of_nat (List.length content)) chunk_size)).
Proof.
  intros Hf Hpos Hlt.
  exists (split_chunks (S (List.length content)) chunk_size content).
  destruct (split_chunks_spec (S (List.length content)) chunk_size content)
    as (Hcat & Hall & Hlast & Hcount); [lia | lia |].
  assert (Hne : content <> []) by (intros ->; cbn in Hlt; lia).
  destruct (Hlast Hne) as [_ Hl].
  repeat split; try assumption; try (apply Hl).
  pose proof (files_bound _ _ _ Hf) as Hbound.
  rewrite (etag_checksum_chunks _ _ _ _ _ Hf) by lia.
  cbv zeta. rewrite length_map.
  assert (Htwo : (2 <= ceil_div (Z.of_nat (List.length content)) chunk_size)%Z).
  { rewrite ceil_div_step by lia.
    pose proof (ceil_div_pos (Z.of_nat (List.length content) - chunk_size) chunk_size).
    lia. }
  assert (E : (1 <? List.length (split_chunks (S (List.length content)) chunk_size content))%nat
              = true) by (apply Nat.ltb_lt; lia).
  rewrite E, Hcount. reflexivity.
Qed.

Lemma etag_checksum_multipart_witness :
  files local_world "ten.bin" = Some (bstr "0123456789") /\
  (0 < 4)%Z /\ (4 < Z.of_nat (List.length (bstr "0123456789")))%Z /\
  exists parts,
    List.concat parts = bstr "0123456789" /\
    Forall (fun p => Z.of_nat (List.length p) = 4%Z) (removelast parts) /\
    (0 < Z.of_nat (List.length (last parts [])) <= 4)%Z /\
    Z.of_nat (List.length parts) = ceil_div (Z.of_nat (List.length (bstr "0123456789"))) 4 /\
    fst (run (etag_checksum local_world "ten.bin" 4) state0) =
      Ok (MD5.hexdigest (List.concat (map MD5.digest parts)) ++ "-"
          ++ str_of_Z (ceil_div (Z.of_nat (List.length (bstr "0123456789"))) 4)).
Proof.
  split; [reflexivity|]. split; [lia|]. split; [vm_compute; reflexivity|].
  apply (etag_checksum_multipart local_world "ten.bin" (bstr "0123456789") 4 state0).
  - reflexivity.
  - lia.
  - vm_compute. reflexivity.
Defined.

(** The 10-byte file in chunks of 4: parts of 4, 4 and 2 bytes. *)
Example etag_checksum_ten_by_four :
  split_chunks 11 4 (bstr "0123456789") = [bstr "0123"; bstr "4567"; bstr "89"] /\
  fst (run (etag_checksum local_world "ten.bin" 4) state0) =
    Ok "61e3716e3a7767581863b67c4e785584-3".
Proof. split; vm_compute; reflexivity. Qed.

(** C6, as stated, fails for the chunk sizes that [read] does not take:
    on a file of zero bytes, a chunk size of [2 ^ 63] is positive, and
    [etag_checksum] raises [OverflowError] at the first read. *)
Lemma empty_file_huge_chunk_size_raises :
  files local_world "empty" = Some [] /\ (0 < 2 ^ 63)%Z /\
  run (etag_checksum local_world "empty" (2 ^ 63)) state0 =
    (Raise OverflowError,
     State [] [EvOpen "empty"; EvRead "empty" 9223372036854775808]).
Proof. split; [|split]; vm_compute; reflexivity. Qed.

(** C6, amended.  For a file of zero bytes, [md5_checksum] returns the
    MD5 of the empty byte string, and so does [etag_checksum], after one
    read and with no part count, for every positive chunk size that
    [read] takes, which are the sizes below [2 ^ 63 - 33]. *)
Theorem empty_file_digests w filename chunk_size s :
  files w filename = Some [] -> (0 < chunk_size < bytes_max)%Z ->
  fst (run (md5_checksum w filename) s) = Ok (MD5.hexdigest []) /\
  run (etag_checksum w filename chunk_size) s =
    (Ok (MD5.hexdigest []),
     State (stdout s) (events s ++ [EvOpen filename; EvRead filename chunk_size])) /\
  MD5.hexdigest [] = "d41d8cd98f00b204e9800998ecf8427e" /\
  bytes_max = (2 ^ 63 - 33)%Z.
Proof.
  intros Hf Hpos. split; [|split; [|split]].
  - now rewrite (md5_checksum_whole _ _ _ _ Hf).
  - rewrite (etag_checksum_chunks _ _ _ _ _ Hf) by lia. reflexivity.
  - vm_compute. reflexivity.
  - reflexivity.
Qed.

Lemma empty_file_digests_witness :
  files local_world "empty" = Some [] /\ (0 < 4 < bytes_max)%Z /\
  fst (run (md5_checksum local_world "empty") state0) = Ok (MD5.hexdigest []) /\
  run (etag_checksum local_world "empty" 4) state0 =
    (Ok (MD5.hexdigest []),
     State (stdout state0) (events state0 ++ [EvOpen "empty"; EvRead "empty" 4])) /\
  MD5.hexdigest [] = "d41d8cd98f00b204e9800998ecf8427e" /\
  bytes_max = (2 ^ 63 - 33)%Z.
Proof.
  split; [reflexivity|]. split; [unfold bytes_max; lia|].
  apply (empty_file_digests local_world "empty" 4 state0);
    [reflexivity | unfold bytes_max; lia].
Defined.

(** ** The comparator *)

Lemma rstrip_snoc c s : rstrip c (s ++ String c "") = rstrip c s.
Proof.
  induction s as [|a s IH]; cbn [append rstrip].
  - now rewrite Ascii.eqb_refl.
  - now rewrite IH.
Qed.

Lemma strip_quoted c d : strip c (String c (d ++ String c "")) = strip c d.
Proof.
  unfold strip. cbn [lstrip]. rewrite Ascii.eqb_refl.
  induction d as [|a d IH]; cbn [append lstrip].
  - now rewrite Ascii.eqb_refl.
  - destruct (Ascii.eqb a c); [exact IH|].
    apply (rstrip_snoc c (String a d)).
Qed.

Lemma lstrip_decomp c s : exists n, s = replicate n c ++ lstrip c s.
Proof.
  induction s as [|a s [n IH]]; cbn [lstrip].
  - now exists 0%nat.
  - destruct (Ascii.eqb a c) eqn:E.
    + apply Ascii.eqb_eq in E. subst a. exists (S n). cbn. now rewrite <- IH.
    + now exists 0%nat.
Qed.

Lemma rstrip_decomp c s : exists m, s = rstrip c s ++ replicate m c.
Proof.
  induction s as [|a s [m IH]]; cbn [rstrip].
  - now exists 0%nat.
  - destruct (rstrip c s) as [|x r].
    + destruct (Ascii.eqb a c) eqn:E.
      * apply Ascii.eqb_eq in E. subst a. exists (S m). cbn in *. now rewrite <- IH.
      * exists m. cbn in *. now rewrite <- IH.
    + exists m. cbn in *. now rewrite <- IH.
Qed.

Lemma append_assoc_str (s1 s2 s3 : string) : (s1 ++ s2) ++ s3 = s1 ++ (s2 ++ s3).
Proof. induction s1 as [|a s1 IH]; cbn [append]; [reflexivity | now rewrite IH]. Qed.

Lemma append_empty_r (s : string) : s ++ "" = s.
Proof. induction s as [|a s IH]; cbn [append]; [reflexivity | now rewrite IH]. Qed.

Lemma rstrip_replicate c s m : rstrip c (s ++ replicate m c) = rstrip c s.
Proof.
  revert s; induction m as [|m IH]; intros s; cbn [replicate].
  - now rewrite append_empty_r.
  - change (String c (replicate m c)) with (String c "" ++ replicate m c).
    rewrite <- append_assoc_str, IH. apply rstrip_snoc.
Qed.

Lemma lstrip_replicate c n s : lstrip c (replicate n c ++ s) = lstrip c s.
Proof.
  induction n as [|n IH]; cbn [replicate append lstrip]; [reflexivity|].
  now rewrite Ascii.eqb_refl.
Qed.

Lemma strip_layers c n m d : strip c (replicate n c ++ d ++ replicate m c) = strip c d.
Proof.
  unfold strip. rewrite lstrip_replicate.
  induction d as [|a d IH]; cbn [append lstrip].
  - pose proof (lstrip_replicate c m "") as H.
    rewrite append_empty_r in H. rewrite H. reflexivity.
  - destruct (Ascii.eqb a c); [exact IH|].
    apply (rstrip_replicate c (String a d) m).
Qed.

(** C7.  The expected digest between two double quotes gives the same
    outcome as the bare digest, for every identifier, mode and chunk
    size.  [etag_compare] uses the expected digest in one way: stripped
    of the double quotes at its two ends, it is compared with the digest
    computed for the mode and returned beside it, the flag being whether
    the two are the same string.  The stripped form is the digest less
    quotes before and after it, with nothing changed in between, and has
    no quote left to strip. *)
Theorem etag_compare_quoted w filename d mode chunk_size s :
  run (etag_compare w filename (String dquote (d ++ String dquote "")) mode chunk_size) s =
  run (etag_compare w filename d mode chunk_size) s /\
  run (etag_compare w filename d mode chunk_size) s =
    match mode_digest w filename mode chunk_size with
    | Some digest =>
        match run digest s with
        | (Ok a, s') => (Ok (strip dquote d =? a, a, strip dquote d), s')
        | (Raise e, s') => (Raise e, s')
        end
    | None => (Raise (UnboundLocalError "a"), s)
    end /\
  (exists n m, d = replicate n dquote ++ strip dquote d ++ replicate m dquote) /\
  strip dquote (strip dquote d) = strip dquote d.
Proof.
  assert (Hdec : exists n m, d = replicate n dquote ++ strip dquote d ++ replicate m dquote).
  { destruct (lstrip_decomp dquote d) as [n Hn].
    destruct (rstrip_decomp dquote (lstrip dquote d)) as [m Hm].
    exists n, m. unfold strip. now rewrite <- Hm. }
  split; [|split; [|split]].
  - unfold run, etag_compare. now rewrite strip_quoted.
  - unfold run, etag_compare, mode_digest.
    destruct (mode =? "etag"); [|destruct (mode =? "md5")].
    + unfold bind. destruct (etag_checksum w filename chunk_size s) as [[a|e] s'];
        [|reflexivity].
      unfold ret. now destruct (strip dquote d =? a).
    + unfold bind. destruct (md5_checksum w filename s) as [[a|e] s']; [|reflexivity].
      unfold ret. now destruct (strip dquote d =? a).
    + reflexivity.
  - exact Hdec.
  - destruct Hdec as (n & m & Hd). rewrite Hd at 2. now rewrite strip_layers.
Qed.

(** The outcome of [etag_compare]: the computed digest, the stripped
    expected digest, and whether they are the same string. *)
Example etag_compare_quoted_a :
  fst (run (etag_compare local_world "a.txt"
              (String dquote ("0cc175b9c0f1b6a831c399e269772661" ++ String dquote ""))
              "md5" default_chunk_size) state0) =
    Ok (true, "0cc175b9c0f1b6a831c399e269772661", "0cc175b9c0f1b6a831c399e269772661").
Proof. vm_compute. reflexivity. Qed.

(** C10.  With a mode that is neither ["etag"] nor ["md5"] the variable
    [a] is never bound, and [etag_compare] raises [UnboundLocalError], a
    [NameError], at the comparison: no outcome is returned and no file is
    opened. *)
Theorem etag_compare_unknown_mode w filename etag mode chunk_size s :
  mode <> "etag" -> mode <> "md5" ->
  run (etag_compare w filename etag mode chunk_size) s = (Raise (UnboundLocalError "a"), s) /\
  is_NameError (UnboundLocalError "a") = true.
Proof.
  intros H1 H2. split; [|reflexivity].
  unfold run, etag_compare. apply String.eqb_neq in H1, H2.
  rewrite H1, H2. reflexivity.
Qed.

Lemma etag_compare_unknown_mode_witness :
  "bogus" <> "etag" /\ "bogus" <> "md5" /\
  run (etag_compare local_world "a.txt" "0cc175b9c0f1b6a831c399e269772661" "bogus"
         default_chunk_size) state0 = (Raise (UnboundLocalError "a"), state0) /\
  is_NameError (UnboundLocalError "a") = true.
Proof.
  split; [discriminate|]. split; [discriminate|].
  apply (etag_compare_unknown_mode local_world "a.txt"
           "0cc175b9c0f1b6a831c399e269772661" "bogus" default_chunk_size state0);
    discriminate.
Defined.

(** ** The reconciliation engine *)

(** C9.  A mode other than ["etag"], ["md5"] and ["s3uri"] prints one
    line, which names the mode, and does nothing else: the log of file
    and remote operations is unchanged, and the call returns. *)
Theorem check_hashes_unrecognized_mode w hashes mode chunk_size bucket key pattern s :
  mode <> "etag" -> mode <> "md5" -> mode <> "s3uri" ->
  run (check_hashes w hashes mode chunk_size bucket key pattern) s =
    (Ok tt, State (stdout s ++ ["Mode '" ++ mode ++ "' not recognized!"]) (events s)).
Proof.
  intros H1 H2 H3. unfold run, check_hashes.
  apply String.eqb_neq in H1, H2, H3. rewrite H1, H2, H3. reflexivity.
Qed.

Lemma check_hashes_unrecognized_mode_witness :
  "bogus" <> "etag" /\ "bogus" <> "md5" /\ "bogus" <> "s3uri" /\
  run (check_hashes local_world [("0cc175b9c0f1b6a831c399e269772661", "a.txt")] "bogus"
         (Some 8388608%Z) (StrArg "bk") (StrArg "dir/") PNone) state0 =
    (Ok tt, State ["Mode 'bogus' not recognized!"] []).
Proof.
  split; [discriminate|]. split; [discriminate|]. split; [discriminate|].
  apply (check_hashes_unrecognized_mode local_world
           [("0cc175b9c0f1b6a831c399e269772661", "a.txt")] "bogus"
           (Some 8388608%Z) (StrArg "bk") (StrArg "dir/") PNone state0);
    discriminate.
Defined.

Lemma np_itemsize_pos hashes : (1 <= np_itemsize hashes)%nat.
Proof.
  unfold np_itemsize. induction hashes as [|p hashes IH]; cbn [fold_right]; lia.
Qed.

Lemma np_cast_None width : int_of_str (np_cast width "None") = None.
Proof. destruct width as [|[|[|[|[|k]]]]]; reflexivity. Qed.

Lemma np_cast_fits width s : (String.length s <= width)%nat -> np_cast width s = s.
Proof.
  unfold np_cast. revert width; induction s as [|a s IH]; intros width H.
  - destruct width; reflexivity.
  - destruct width as [|width]; cbn [String.length] in H; [lia|].
    cbn [substring]. rewrite IH by lia. reflexivity.
Qed.

Lemma np_astype_int_fold str n acc s :
  for_fold (repeat str n)
    (fun acc s =>
       match int_of_str s with
       | None => raise (ValueError "invalid literal for int() with base 10")
       | Some z => if in_int64 z then ret (acc ++ [z])%list else raise OverflowError
       end) acc s =
  match n, int_of_str str with
  | O, _ => (Ok acc, s)
  | S _, None => (Raise (ValueError "invalid literal for int() with base 10"), s)
  | S _, Some z => if in_int64 z then (Ok (acc ++ repeat z n)%list, s)
                   else (Raise OverflowError, s)
  end.
Proof.
  revert acc; induction n as [|n IH]; intros acc; [reflexivity|].
  cbn [repeat for_fold]. unfold bind at 1.
  destruct (int_of_str str) as [z|] eqn:E; [|reflexivity].
  destruct (in_int64 z) eqn:R; [|reflexivity].
  unfold ret at 1. rewrite IH. rewrite ?E, ?R.
  destruct n; cbn [repeat]; rewrite <- ?app_assoc; reflexivity.
Qed.

Lemma for_zip3_map4 {R} (f : string -> string -> string -> Z -> M R)
    (body : R -> string -> string -> M unit) (h : list (string * string)) m c n s :
  n = List.length h ->
  for_zip3 (py_map4 f (map snd h) (map fst h) (repeat m n) (repeat c n))
           (map fst h) (map snd h) body s =
  for_each h (fun entry => let '(e, i) := entry in r <- f i e m c ;; body r e i) s.
Proof.
  revert n s; induction h as [|[e i] h IH]; intros n s ->; [reflexivity|].
  cbn [List.length repeat map fst snd py_map4 combine for_zip3 for_each].
  unfold py_map4 in IH. unfold bind at 1 3 4.
  destruct (f i e m c s) as [[r|x] s1]; [|reflexivity].
  unfold bind at 1 2. destruct (body r e i s1) as [[[]|x] s2]; [|reflexivity].
  apply IH. reflexivity.
Qed.

Lemma for_zip3_map3 {R} (f : string -> string -> string -> M R)
    (body : R -> string -> string -> M unit) (h : list (string * string)) m n s :
  n = List.length h ->
  for_zip3 (py_map3 f (map snd h) (map fst h) (repeat m n))
           (map fst h) (map snd h) body s =
  for_each h (fun entry => let '(e, i) := entry in r <- f i e m ;; body r e i) s.
Proof.
  revert n s; induction h as [|[e i] h IH]; intros n s ->; [reflexivity|].
  cbn [List.length repeat map fst snd py_map3 combine for_zip3 for_each].
  unfold py_map3 in IH. unfold bind at 1 3 4.
  destruct (f i e m s) as [[r|x] s1]; [|reflexivity].
  unfold bind at 1 2. destruct (body r e i s1) as [[[]|x] s2]; [|reflexivity].
  apply IH. reflexivity.
Qed.

(** The local branch of [check_hashes], entry by entry: every entry is
    compared with the mode and the chunk size that came out of the
    array. *)
Lemma check_hashes_local w hashes mode chunk_size bucket key pattern s :
  hashes <> [] -> mode = "etag" \/ mode = "md5" ->
  run (check_hashes w hashes mode chunk_size bucket key pattern) s =
  match np_chunk_size hashes chunk_size with
  | Ok c =>
      run (for_each hashes
             (local_entry w mode (np_cast (np_itemsize hashes) mode) c)) s
  | Raise x => (Raise x, s)
  end.
Proof.
  intros Hne Hmode. unfold run, check_hashes.
  assert (E : (mode =? "etag") || (mode =? "md5") = true)
    by (destruct Hmode as [-> | ->]; reflexivity).
  rewrite E. clear E.
  destruct hashes as [|h0 hs]; [congruence|]. clear Hne.
  set (width := np_itemsize (h0 :: hs)).
  unfold np_chunk_size. fold width.
  unfold bind at 1. unfold try_except.
  unfold bind at 1. unfold np_insert_T at 1. fold width. unfold ret at 1.
  cbn [app map unpack4]. unfold bind at 1. unfold ret at 1.
  unfold bind at 1. unfold np_astype_int.
  rewrite np_astype_int_fold. cbn [List.length].
  destruct (int_of_str (np_cast width (py_str chunk_size))) as [z|] eqn:Ez.
  - destruct (in_int64 z) eqn:Rz; [|reflexivity].
    unfold ret at 1. cbn [app].
    apply (for_zip3_map4 (etag_compare w) (report_local mode) (h0 :: hs)). reflexivity.
  - cbn [is_ValueError]. unfold bind at 1. unfold np_insert_T.
    fold width. unfold ret at 1. cbn [map app unpack3]. unfold bind at 1. unfold ret at 1 2.
    apply (for_zip3_map3 (fun i e m => etag_compare w i e m default_chunk_size)
             (report_local mode) (h0 :: hs)). reflexivity.
Qed.

Lemma np_chunk_size_None hashes : np_chunk_size hashes None = Ok default_chunk_size.
Proof. unfold np_chunk_size, py_str. now rewrite np_cast_None. Qed.

(** C3, as stated, fails: without a chunk size, mode ["etag"] does not
    take the whole-file path.  The file is read in chunks of 8388608
    bytes, not in the buffers of 1048576 bytes of [md5_checksum], and the
    digest printed for it is not its whole-file digest, which is the
    expected digest of the entry. *)
Lemma check_hashes_no_chunk_size_etag_is_chunked :
  run (check_hashes local_world [("0cc175b9c0f1b6a831c399e269772661", "a.txt")]
         "etag" None NoneArg NoneArg PNone) state0 =
    (Ok tt,
     State ["Comparing etags for a.txt ...";
            join tab ["0cc175b9c0f1b6a831c399e269772661"; "a.txt"; "-->";
                      "b6ff9a06b7e20bcb2858c5b8ff744aea"; "NO MATCH!"]]
           [EvOpen "a.txt"; EvRead "a.txt" 8388608; EvRead "a.txt" 8388608]) /\
  run (md5_checksum local_world "a.txt") state0 =
    (Ok "0cc175b9c0f1b6a831c399e269772661",
     State [] [EvOpen "a.txt"; EvRead "a.txt" 1048576; EvRead "a.txt" 1048576]).
Proof. split; vm_compute; reflexivity. Qed.

(** C3, amended.  For a batch that is not empty and holds a string at
    least as long as the name of the mode, a local mode without a chunk
    size does not fail on the missing chunk size: every entry is compared
    by [etag_compare] with the mode and the default chunk size of 8 MiB,
    so that ["md5"] digests whole files and ["etag"] digests in chunks of
    8 MiB. *)
Theorem check_hashes_no_chunk_size w hashes mode bucket key pattern s :
  hashes <> [] -> mode = "etag" \/ mode = "md5" ->
  (String.length mode <= np_itemsize hashes)%nat ->
  run (check_hashes w hashes mode None bucket key pattern) s =
    run (for_each hashes (local_entry w mode mode default_chunk_size)) s /\
  default_chunk_size = 8388608%Z.
Proof.
  intros Hne Hmode Hfit. split; [|reflexivity].
  rewrite check_hashes_local by assumption.
  rewrite np_chunk_size_None, np_cast_fits by assumption. reflexivity.
Qed.

Lemma check_hashes_no_chunk_size_witness :
  [("0cc175b9c0f1b6a831c399e269772661", "a.txt")] <> [] /\
  ("md5" = "etag" \/ "md5" = "md5") /\
  (String.length "md5"
   <= np_itemsize [("0cc175b9c0f1b6a831c399e269772661", "a.txt")])%nat /\
  run (check_hashes local_world [("0cc175b9c0f1b6a831c399e269772661", "a.txt")]
         "md5" None NoneArg NoneArg PNone) state0 =
    run (for_each [("0cc175b9c0f1b6a831c399e269772661", "a.txt")]
           (local_entry local_world "md5" "md5" default_chunk_size)) state0 /\
  default_chunk_size = 8388608%Z.
Proof.
  split; [discriminate|]. split; [right; reflexivity|].
  split; [vm_compute; lia|].
  apply (check_hashes_no_chunk_size local_world
           [("0cc175b9c0f1b6a831c399e269772661", "a.txt")] "md5"
           NoneArg NoneArg PNone state0).
  - discriminate.
  - right. reflexivity.
  - vm_compute. lia.
Defined.

(** An empty batch is rejected by [np.insert], in the [try] block and
    again in the handler. *)
Lemma check_hashes_empty_batch w mode chunk_size bucket key pattern s :
  mode = "etag" \/ mode = "md5" ->
  run (check_hashes w [] mode chunk_size bucket key pattern) s = (Raise AxisError, s).
Proof. intros [-> | ->]; reflexivity. Qed.

(** A batch of strings shorter than the name of the mode: the array cuts
    ["etag"] to two characters, which [etag_compare] does not know. *)
Example check_hashes_short_strings :
  run (check_hashes local_world [("ab", "f")] "etag" (Some 8388608%Z)
         NoneArg NoneArg PNone) state0 =
    (Raise (UnboundLocalError "a"), state0).
Proof. vm_compute. reflexivity. Qed.

(** What one comparison does when the file opens: an outcome, and the
    opening of the file followed by reads. *)
Lemma etag_compare_ok w filename content etag mode chunk_size :
  files w filename = Some content ->
  mode = "md5" \/ (mode = "etag" /\ (0 <= chunk_size < bytes_max)%Z) ->
  exists r evs,
    Forall (fun ev => is_open_event ev = false) evs /\
    forall s, etag_compare w filename etag mode chunk_size s =
                (Ok r, State (stdout s) (events s ++ EvOpen filename :: evs)).
Proof.
  intros Hf [-> | [-> Hcs]].
  - exists (strip dquote etag =? MD5.hexdigest content, MD5.hexdigest content,
            strip dquote etag).
    exists (repeat (EvRead filename 1048576)
              (S (List.length (split_chunks (S (List.length content)) 1048576 content)))).
    split.
    + apply Forall_forall. intros ev Hin. apply repeat_spec in Hin. now subst ev.
    + intros s. unfold etag_compare.
      change ("md5" =? "etag") with false. change ("md5" =? "md5") with true.
      cbv iota. unfold bind at 1 2.
      pose proof (md5_checksum_whole w filename content s Hf) as H. unfold run in H.
      rewrite H. unfold ret at 1.
      destruct (strip dquote etag =? MD5.hexdigest content); reflexivity.
  - pose proof (fun s => etag_checksum_chunks w filename content chunk_size s Hf Hcs) as H.
    cbv zeta in H. unfold run in H.
    set (parts := split_chunks (S (List.length content)) chunk_size content) in *.
    set (md5s := map MD5.digest parts) in *.
    set (a := if (1 <? List.length md5s)%nat
              then MD5.hexdigest (List.concat md5s) ++ "-"
                   ++ str_of_Z (Z.of_nat (List.length md5s))
              else MD5.hexdigest (List.concat md5s)) in *.
    exists (strip dquote etag =? a, a, strip dquote etag).
    exists (repeat (EvRead filename chunk_size) (S (List.length parts))).
    split.
    + apply Forall_forall. intros ev Hin. apply repeat_spec in Hin. now subst ev.
    + intros s. unfold etag_compare.
      change ("etag" =? "etag") with true.
      cbv iota. unfold bind at 1 2. rewrite H. unfold ret at 1.
      destruct (strip dquote etag =? a); reflexivity.
Qed.

Lemma etag_compare_missing w filename etag mode chunk_size s :
  files w filename = None -> mode = "etag" \/ mode = "md5" ->
  etag_compare w filename etag mode chunk_size s =
    (Raise (FileNotFoundError filename),
     State (stdout s) (events s ++ [EvOpen filename])).
Proof.
  intros Hf [-> | ->]; unfold etag_compare.
  - change ("etag" =? "etag") with true. cbv iota.
    unfold bind at 1 2. unfold etag_checksum. unfold bind at 1.
    now rewrite py_open_none.
  - change ("md5" =? "etag") with false. change ("md5" =? "md5") with true. cbv iota.
    unfold bind at 1 2. unfold md5_checksum. unfold bind at 1.
    now rewrite py_open_none.
Qed.

Lemma report_local_prints mode r v el :
  exists l1 l2, forall s,
    report_local mode r v el s = (Ok tt, State (stdout s ++ [l1; l2]) (events s)).
Proof.
  destruct r as [[val a] et]. unfold report_local.
  destruct val; eexists _, _; intros s; unfold bind, print; cbn [stdout events];
    rewrite <- app_assoc; reflexivity.
Qed.

Lemma count_opens_reads evs :
  Forall (fun ev => is_open_event ev = false) evs -> count_opens evs = 0%nat.
Proof.
  unfold count_opens. induction 1 as [|ev evs H _ IH]; [reflexivity|].
  cbn [filter]. now rewrite H.
Qed.

Lemma count_opens_app evs1 evs2 :
  count_opens (evs1 ++ evs2) = (count_opens evs1 + count_opens evs2)%nat.
Proof. unfold count_opens. now rewrite filter_app, length_app. Qed.

(** C2, as stated, fails: the file of the first entry does not open, and
    [check_hashes] raises the [FileNotFoundError] without printing a
    line; the second entry, whose file is there, is never opened. *)
Lemma check_hashes_missing_file_aborts :
  files local_world "missing.bin" = None /\
  files local_world "a.txt" = Some (bstr "a") /\
  run (check_hashes local_world
         [("d41d8cd98f00b204e9800998ecf8427e", "missing.bin");
          ("0cc175b9c0f1b6a831c399e269772661", "a.txt")]
         "md5" None NoneArg NoneArg PNone) state0 =
    (Raise (FileNotFoundError "missing.bin"), State [] [EvOpen "missing.bin"]).
Proof. split; [|split]; vm_compute; reflexivity. Qed.

(** ** The remote branch *)

Lemma for_each_print {A} (l : list A) (body : A -> M unit) (g : A -> string) s :
  (forall x s', body x s' = print (g x) s') ->
  for_each l body s = (Ok tt, State (stdout s ++ map g l) (events s)).
Proof.
  intros Hbody. revert s; induction l as [|x l IH]; intros s; cbn [for_each map].
  - unfold ret. rewrite app_nil_r. now destruct s.
  - unfold bind. rewrite Hbody. unfold print. rewrite IH. cbn [stdout events].
    rewrite <- app_assoc. reflexivity.
Qed.

Lemma same_elements_In l1 l2 x :
  same_elements l1 l2 = true -> (In x l1 <-> In x l2).
Proof.
  unfold same_elements. rewrite forallb_forall. intros H.
  split; intros Hin.
  - specialize (H x (in_or_app _ _ _ (or_introl Hin))). apply Nat.eqb_eq in H.
    apply (count_occ_In string_dec). rewrite <- H. now apply count_occ_In.
  - specialize (H x (in_or_app _ _ _ (or_intror Hin))). apply Nat.eqb_eq in H.
    apply (count_occ_In string_dec). rewrite H. now apply count_occ_In.
Qed.

(** Whatever the order, the set holds the elements of the list. *)
Lemma py_set_In w l x : In x (py_set w l) <-> In x l.
Proof.
  unfold py_set.
  destruct (same_elements (set_order w (nodup string_dec l)) (nodup string_dec l)) eqn:E.
  - rewrite (same_elements_In _ _ x E). apply nodup_In.
  - apply nodup_In.
Qed.




Lemma report_remote_lines w data entry s :
  report_remote w data entry s =
    (Ok tt, State (stdout s ++ remote_lines w data entry) (events s)).
Proof.
  destruct entry as [e i]. unfold report_remote, remote_lines.
  destruct (py_set w (map fst (filter (fun nm => contains i (snd nm)) data)))
    as [|x found] eqn:E.
  - reflexivity.
  - apply for_each_print. intros et s'. now destruct (et =? e).
Qed.



(** ** The chunk size of the command line *)

Lemma is_ascii_digit_cases c :
  is_ascii_digit c = true ->
  In c ["0"; "1"; "2"; "3"; "4"; "5"; "6"; "7"; "8"; "9"]%char.
Proof.
  destruct c as [[] [] [] [] [] [] [] []]; intros H; try discriminate H;
    cbn; auto 12.
Qed.

Lemma is_ascii_digit_not_minus c : is_ascii_digit c = true -> Ascii.eqb c "-" = false.
Proof.
  intros Hc. apply is_ascii_digit_cases in Hc. cbn in Hc.
  repeat (destruct Hc as [<- | Hc]; [reflexivity|]). contradiction.
Qed.

Lemma uint_of_char_digit c u :
  is_ascii_digit c = true -> exists u', uint_of_char c (Some u) = Some u'.
Proof.
  intros H. apply is_ascii_digit_cases in H. cbn in H.
  repeat (destruct H as [<- | H]; [eexists; reflexivity|]). contradiction.
Qed.

Lemma digits_parse ds :
  string_forallb is_ascii_digit ds = true ->
  exists u, NilEmpty.uint_of_string ds = Some u.
Proof.
  induction ds as [|c ds IH]; cbn [string_forallb NilEmpty.uint_of_string]; intros H.
  - now exists Decimal.Nil.
  - apply andb_prop in H. destruct H as [Hc Hds].
    destruct (IH Hds) as [u ->]. now apply uint_of_char_digit.
Qed.

Lemma digit_count_digits ds :
  string_forallb is_ascii_digit ds = true -> digit_count ds = String.length ds.
Proof.
  destruct ds as [|c ds]; [reflexivity|]. cbn [string_forallb]. intros H.
  apply andb_prop in H. destruct H as [Hc _].
  cbn [digit_count]. now rewrite (is_ascii_digit_not_minus c Hc).
Qed.

Lemma decimal_reading_digits ds :
  ds <> "" -> string_forallb is_ascii_digit ds = true ->
  exists n, decimal_reading ds = Some n /\ (0 <= n)%Z.
Proof.
  intros Hne Hds. destruct (digits_parse ds Hds) as [u Hu].
  destruct ds as [|c ds]; [congruence|].
  cbn [string_forallb] in Hds. apply andb_prop in Hds. destruct Hds as [Hc _].
  unfold decimal_reading, NilZero.int_of_string, NilZero.uint_of_string.
  rewrite (is_ascii_digit_not_minus c Hc), Hu. cbn [option_map].
  eexists. split; [reflexivity|].
  cbn [Z.of_int]. unfold Z.of_uint. apply N2Z.is_nonneg.
Qed.

(** [int] reads a run of digits when they are not more than 4300. *)
Lemma int_of_str_digits ds :
  string_forallb is_ascii_digit ds = true ->
  int_of_str ds =
    if (int_max_str_digits <? String.length ds)%nat then None else decimal_reading ds.
Proof. intros Hds. unfold int_of_str. now rewrite (digit_count_digits ds Hds). Qed.

Lemma ustr_app a b : ustr (a ++ b) = (ustr a ++ ustr b)%list.
Proof.
  unfold ustr. induction a as [|c a IH]; [reflexivity|].
  cbn [append list_ascii_of_string map List.app]. now rewrite IH.
Qed.

Lemma table_ascii_digit decimal c :
  unicode_table decimal -> is_ascii_digit c = true ->
  decimal (N_of_ascii c) = Some (N_of_ascii c - 48)%N /\
  digit_char (N_of_ascii c - 48) = c.
Proof.
  intros [_ Hascii] Hc. apply is_ascii_digit_cases in Hc. cbn in Hc.
  repeat (destruct Hc as [<- | Hc];
          [split; [rewrite Hascii; reflexivity | reflexivity] | idtac]).
  contradiction.
Qed.

Lemma digit_char_digit v : (v < 10)%N -> is_ascii_digit (digit_char v) = true.
Proof.
  intros H.
  assert (E : (v = 0 \/ v = 1 \/ v = 2 \/ v = 3 \/ v = 4 \/ v = 5 \/ v = 6 \/ v = 7
               \/ v = 8 \/ v = 9)%N) by lia.
  repeat (destruct E as [-> | E]; [reflexivity|]). now subst.
Qed.

(** The text that [int] reads is made of the digits [0] to [9], one for
    each code point. *)
Lemma ascii_digits_digits decimal digits :
  unicode_table decimal ->
  string_forallb is_ascii_digit (ascii_digits decimal digits) = true /\
  String.length (ascii_digits decimal digits) = List.length digits.
Proof.
  intros [Hlt _]. unfold ascii_digits.
  induction digits as [|c digits [IH1 IH2]]; [now split|].
  cbn [map string_of_list_ascii string_forallb String.length List.length].
  rewrite IH1, IH2. split; [|reflexivity].
  rewrite andb_true_r. apply digit_char_digit.
  destruct (decimal c) as [v|] eqn:E; [now apply (Hlt c)|reflexivity].
Qed.

(** On a text of the digits [0] to [9], nothing changes. *)
Lemma ascii_digits_ustr decimal ds :
  unicode_table decimal -> string_forallb is_ascii_digit ds = true ->
  forallb (is_decimal decimal) (ustr ds) = true /\
  ascii_digits decimal (ustr ds) = ds.
Proof.
  intros Ht. unfold ascii_digits, ustr, is_decimal.
  induction ds as [|c ds IH]; [now split|].
  cbn [string_forallb list_ascii_of_string map forallb string_of_list_ascii].
  intros H. apply andb_prop in H. destruct H as [Hc Hds].
  destruct (IH Hds) as [IH1 IH2]. destruct (table_ascii_digit decimal c Ht Hc) as [-> ->].
  now rewrite IH1, IH2.
Qed.

Lemma span_digits_spec decimal s digits rest :
  span_digits decimal s = (digits, rest) ->
  s = (digits ++ rest)%list /\ forallb (is_decimal decimal) digits = true /\
  match rest with c :: _ => is_decimal decimal c = false | [] => True end.
Proof.
  revert digits rest; induction s as [|c s IH]; intros digits rest; cbn [span_digits].
  - intros [= <- <-]. now repeat split.
  - destruct (is_decimal decimal c) eqn:Ec.
    + destruct (span_digits decimal s) as [d r]. intros [= <- <-].
      destruct (IH d r eq_refl) as (-> & Hd & Hr). split; [reflexivity|].
      cbn [forallb]. now rewrite Ec, Hd.
    + intros [= <- <-]. now repeat split.
Qed.

Lemma span_digits_app decimal ds rest :
  forallb (is_decimal decimal) ds = true ->
  match rest with c :: _ => is_decimal decimal c = false | [] => True end ->
  span_digits decimal (ds ++ rest)%list = (ds, rest).
Proof.
  intros Hds Hrest. induction ds as [|c ds IH]; cbn [List.app span_digits].
  - destruct rest as [|c rest]; [reflexivity|]. cbn [span_digits]. now rewrite Hrest.
  - cbn [forallb] in Hds. apply andb_prop in Hds. destruct Hds as [Hc Hds].
    now rewrite Hc, (IH Hds).
Qed.

Lemma string_of_uint_digits u :
  string_forallb is_ascii_digit (NilEmpty.string_of_uint u) = true.
Proof. induction u; cbn [NilEmpty.string_of_uint string_forallb]; auto. Qed.

Lemma str_of_Z_digits n :
  (0 <= n)%Z -> str_of_Z n <> "" /\ string_forallb is_ascii_digit (str_of_Z n) = true.
Proof.
  intros Hn. unfold str_of_Z. destruct n as [|p|p]; [now split | | lia].
  cbn [Z.to_int NilZero.string_of_int]. unfold NilZero.string_of_uint.
  pose proof (DecimalPos.Unsigned.to_uint_nonnil p) as Hnil.
  pose proof (string_of_uint_digits (Pos.to_uint p)) as Hd.
  destruct (Pos.to_uint p) eqn:E; try congruence; (split; [discriminate | exact Hd]).
Qed.

Lemma decimal_reading_of_Z z : decimal_reading (str_of_Z z) = Some z.
Proof.
  unfold decimal_reading, str_of_Z. rewrite NilZero.isi.
  - cbn [option_map]. now rewrite DecimalZ.of_to.
  - destruct z; cbn [Z.to_int]; try discriminate.
    intros [= H]. now apply (DecimalPos.Unsigned.to_uint_nonnil p).
  - destruct z; cbn [Z.to_int]; try discriminate.
    intros [= H]. now apply (DecimalPos.Unsigned.to_uint_nonnil p).
Qed.

(** *** How long the decimal text of a number is *)

Lemma usize_length u :
  DecimalPos.Unsigned.usize u = N.of_nat (String.length (NilEmpty.string_of_uint u)).
Proof.
  induction u;
    cbn [DecimalPos.Unsigned.usize NilEmpty.string_of_uint String.length];
    try rewrite IHu; lia.
Qed.

Lemma to_uint_nzhead p : Decimal.nzhead (Pos.to_uint p) = Pos.to_uint p.
Proof.
  pose proof (DecimalPos.Unsigned.to_of (Pos.to_uint p)) as H.
  rewrite DecimalPos.Unsigned.of_to in H. cbn [N.to_uint] in H.
  rewrite <- DecimalFacts.unorm_nzhead; [now symmetry|].
  intros Hnil. apply DecimalFacts.unorm_0 in Hnil. rewrite Hnil in H.
  now apply (DecimalPos.Unsigned.to_uint_nonzero p).
Qed.

Lemma of_uint_lower u :
  Decimal.nzhead u = u -> u <> Decimal.Nil ->
  (10 ^ (DecimalPos.Unsigned.usize u - 1) <= Pos.of_uint u)%N.
Proof.
  intros Hnz Hne. destruct u as [|u|u|u|u|u|u|u|u|u|u]; [congruence| |..].
  - exfalso. now apply (DecimalFacts.nzhead_nonzero (Decimal.D0 u) u).
  - cbn [Pos.of_uint DecimalPos.Unsigned.usize].
    rewrite DecimalPos.Unsigned.of_uint_acc_rev.
    replace (N.succ (DecimalPos.Unsigned.usize u) - 1)%N
      with (DecimalPos.Unsigned.usize u) by lia. nia.
  - cbn [Pos.of_uint DecimalPos.Unsigned.usize].
    rewrite DecimalPos.Unsigned.of_uint_acc_rev.
    replace (N.succ (DecimalPos.Unsigned.usize u) - 1)%N
      with (DecimalPos.Unsigned.usize u) by lia. nia.
  - cbn [Pos.of_uint DecimalPos.Unsigned.usize].
    rewrite DecimalPos.Unsigned.of_uint_acc_rev.
    replace (N.succ (DecimalPos.Unsigned.usize u) - 1)%N
      with (DecimalPos.Unsigned.usize u) by lia. nia.
  - cbn [Pos.of_uint DecimalPos.Unsigned.usize].
    rewrite DecimalPos.Unsigned.of_uint_acc_rev.
    replace (N.succ (DecimalPos.Unsigned.usize u) - 1)%N
      with (DecimalPos.Unsigned.usize u) by lia. nia.
  - cbn [Pos.of_uint DecimalPos.Unsigned.usize].
    rewrite DecimalPos.Unsigned.of_uint_acc_rev.
    replace (N.succ (DecimalPos.Unsigned.usize u) - 1)%N
      with (DecimalPos.Unsigned.usize u) by lia. nia.
  - cbn [Pos.of_uint DecimalPos.Unsigned.usize].
    rewrite DecimalPos.Unsigned.of_uint_acc_rev.
    replace (N.succ (DecimalPos.Unsigned.usize u) - 1)%N
      with (DecimalPos.Unsigned.usize u) by lia. nia.
  - cbn [Pos.of_uint DecimalPos.Unsigned.usize].
    rewrite DecimalPos.Unsigned.of_uint_acc_rev.
    replace (N.succ (DecimalPos.Unsigned.usize u) - 1)%N
      with (DecimalPos.Unsigned.usize u) by lia. nia.
  - cbn [Pos.of_uint DecimalPos.Unsigned.usize].
    rewrite DecimalPos.Unsigned.of_uint_acc_rev.
    replace (N.succ (DecimalPos.Unsigned.usize u) - 1)%N
      with (DecimalPos.Unsigned.usize u) by lia. nia.
  - cbn [Pos.of_uint DecimalPos.Unsigned.usize].
    rewrite DecimalPos.Unsigned.of_uint_acc_rev.
    replace (N.succ (DecimalPos.Unsigned.usize u) - 1)%N
      with (DecimalPos.Unsigned.usize u) by lia. nia.
Qed.

(** A positive number below [10 ^ k] is written with [k] digits at most. *)
Lemma pos_digits p k :
  (Z.pos p < 10 ^ Z.of_nat k)%Z ->
  (String.length (NilEmpty.string_of_uint (Pos.to_uint p)) <= k)%nat.
Proof.
  intros Hlt.
  pose proof (of_uint_lower (Pos.to_uint p) (to_uint_nzhead p)
                (DecimalPos.Unsigned.to_uint_nonnil p)) as Hlow.
  rewrite DecimalPos.Unsigned.of_to, usize_length in Hlow.
  set (L := String.length (NilEmpty.string_of_uint (Pos.to_uint p))) in *.
  destruct (Nat.le_gt_cases L k) as [Hle | Hgt]; [exact Hle|exfalso].
  assert (Hpow : (10 ^ N.of_nat k <= 10 ^ (N.of_nat L - 1))%N).
  { apply N.pow_le_mono_r; lia. }
  assert (Hz : (10 ^ Z.of_nat k <= Z.pos p)%Z).
  { change (Z.pos p) with (Z.of_N (N.pos p)).
    rewrite <- nat_N_Z. change 10%Z with (Z.of_N 10).
    rewrite <- N2Z.inj_pow. apply N2Z.inj_le. lia. }
  lia.
Qed.

Lemma digit_count_str_of_Z z k :
  (1 <= k)%nat -> (Z.abs z < 10 ^ Z.of_nat k)%Z ->
  (digit_count (str_of_Z z) <= k)%nat.
Proof.
  intros Hk Hz. unfold str_of_Z. destruct z as [|p|p].
  - cbn. lia.
  - cbn [Z.to_int NilZero.string_of_int]. unfold NilZero.string_of_uint.
    pose proof (pos_digits p k Hz) as Hlen.
    pose proof (string_of_uint_digits (Pos.to_uint p)) as Hd.
    destruct (Pos.to_uint p) eqn:E;
      [cbn; lia | rewrite (digit_count_digits _ Hd); exact Hlen ..].
  - cbn [Z.to_int NilZero.string_of_int]. unfold NilZero.string_of_uint.
    pose proof (pos_digits p k Hz) as Hlen.
    destruct (Pos.to_uint p) eqn:E; [cbn; lia | cbn [digit_count Ascii.eqb]; exact Hlen ..].
Qed.

(** The decimal text of a number of 64 bits reads back as the number. *)
Lemma int_of_str_of_Z z : in_int64 z = true -> int_of_str (str_of_Z z) = Some z.
Proof.
  intros Hr. unfold int_of_str.
  assert (Hd : (digit_count (str_of_Z z) <= 19)%nat).
  { apply digit_count_str_of_Z; [lia|].
    unfold in_int64 in Hr. apply andb_prop in Hr. destruct Hr as [Hlo Hhi].
    apply Z.leb_le in Hlo. apply Z.ltb_lt in Hhi.
    change (10 ^ Z.of_nat 19)%Z with 10000000000000000000%Z.
    change (2 ^ 63)%Z with 9223372036854775808%Z in Hlo, Hhi. lia. }
  assert (Hmax : (19 <= int_max_str_digits)%nat) by (apply Nat.leb_le; reflexivity).
  destruct (Nat.ltb_spec int_max_str_digits (digit_count (str_of_Z z))) as [Hgt | _];
    [lia|].
  apply decimal_reading_of_Z.
Qed.

Lemma convert_literals_cases suffix size :
  convert_literals suffix = Some size ->
  (suffix = "" /\ size = 1%Z) \/ (suffix = "KB" /\ size = 1024%Z) \/
  (suffix = "MB" /\ size = 1048576%Z) \/ (suffix = "GB" /\ size = 1073741824%Z) \/
  (suffix = "TB" /\ size = 1099511627776%Z).
Proof.
  unfold convert_literals.
  destruct (String.eqb_spec suffix "") as [-> | _]; [intros [= <-]; tauto|].
  destruct (String.eqb_spec suffix "KB") as [-> | _]; [intros [= <-]; tauto|].
  destruct (String.eqb_spec suffix "MB") as [-> | _]; [intros [= <-]; tauto|].
  destruct (String.eqb_spec suffix "GB") as [-> | _]; [intros [= <-]; tauto|].
  destruct (String.eqb_spec suffix "TB") as [-> | _]; [intros [= <-]; tauto|].
  discriminate.
Qed.

(** What the pattern lets through after the digits is a key of the
    table. *)
Lemma match_suffix_cases rest suffix :
  match_suffix rest = Some suffix ->
  rest = ustr suffix /\ exists size, convert_literals suffix = Some size /\ (0 < size)%Z.
Proof.
  unfold match_suffix, ustring_eqb.
  destruct (list_eq_dec N.eq_dec rest (ustr "")) as [-> | _];
    [intros [= <-]; split; [reflexivity | now exists 1%Z]|].
  destruct (list_eq_dec N.eq_dec rest (ustr "KB")) as [-> | _];
    [intros [= <-]; split; [reflexivity | now exists 1024%Z]|].
  destruct (list_eq_dec N.eq_dec rest (ustr "MB")) as [-> | _];
    [intros [= <-]; split; [reflexivity | now exists 1048576%Z]|].
  destruct (list_eq_dec N.eq_dec rest (ustr "GB")) as [-> | _];
    [intros [= <-]; split; [reflexivity | now exists 1073741824%Z]|].
  destruct (list_eq_dec N.eq_dec rest (ustr "TB")) as [-> | _];
    [intros [= <-]; split; [reflexivity | now exists 1099511627776%Z]|].
  discriminate.
Qed.

(** A key of the table is let through, and does not start with a
    digit. *)
Lemma match_suffix_key decimal suffix size :
  unicode_table decimal -> convert_literals suffix = Some size ->
  match_suffix (ustr suffix) = Some suffix /\
  match ustr suffix with c :: _ => is_decimal decimal c = false | [] => True end.
Proof.
  intros [_ Hascii] Hsize. apply convert_literals_cases in Hsize. unfold is_decimal.
  destruct Hsize as [[-> _]|[[-> _]|[[-> _]|[[-> _]|[-> _]]]]];
    (split; [reflexivity|]); cbn; try exact I; rewrite Hascii; reflexivity.
Qed.

Lemma sample_decimal_table : unicode_table sample_decimal.
Proof.
  split.
  - intros c v. unfold sample_decimal.
    destruct ((48 <=? c) && (c <=? 57))%N eqn:E1.
    + apply andb_prop in E1. destruct E1 as [H1 H2].
      apply N.leb_le in H1. apply N.leb_le in H2. intros [= <-]. lia.
    + destruct ((1632 <=? c) && (c <=? 1641))%N eqn:E2; [|discriminate].
      apply andb_prop in E2. destruct E2 as [H1 H2].
      apply N.leb_le in H1. apply N.leb_le in H2. intros [= <-]. lia.
  - intros c Hc. unfold sample_decimal.
    destruct ((48 <=? c) && (c <=? 57))%N; [reflexivity|].
    destruct ((1632 <=? c) && (c <=? 1641))%N eqn:E2; [|reflexivity].
    apply andb_prop in E2. destruct E2 as [H1 _]. apply N.leb_le in H1. lia.
Qed.

(** X1.  Writing a number that is not negative and has 4300 digits at
    most in decimal, followed by nothing or by one of [KB], [MB], [GB],
    [TB], and reading it back with [validate_chunks] gives the number
    times the power of 1024 of the suffix, whatever other digits the
    Unicode database of the interpreter knows. *)
Theorem validate_chunks_round_trip decimal n suffix size :
  unicode_table decimal ->
  (0 <= n < 10 ^ 4300)%Z -> convert_literals suffix = Some size ->
  validate_chunks decimal (ustr (str_of_Z n ++ suffix)) = inl (n * size)%Z.
Proof.
  intros Ht [Hn Hlt] Hsize. destruct (str_of_Z_digits n Hn) as [Hne Hds].
  destruct (ascii_digits_ustr decimal _ Ht Hds) as [Hdec Hsame].
  destruct (match_suffix_key decimal suffix size Ht Hsize) as [Hm Hnd].
  unfold validate_chunks, fullmatch_chunksize.
  rewrite ustr_app, (span_digits_app decimal _ _ Hdec Hnd), Hm.
  destruct (ustr (str_of_Z n)) as [|c ds] eqn:E.
  - exfalso. apply Hne. rewrite <- Hsame. reflexivity.
  - rewrite Hsize, Hsame, (int_of_str_digits _ Hds).
    assert (Hlen : (String.length (str_of_Z n) <= int_max_str_digits)%nat).
    { rewrite <- (digit_count_digits _ Hds).
      apply digit_count_str_of_Z; [apply Nat.leb_le; reflexivity|].
      change (Z.of_nat int_max_str_digits) with 4300%Z. lia. }
    destruct (Nat.ltb_spec int_max_str_digits (String.length (str_of_Z n))) as [Hgt | _];
      [lia|].
    now rewrite decimal_reading_of_Z.
Qed.

Lemma validate_chunks_round_trip_witness :
  unicode_table sample_decimal /\
  (0 <= 8 < 10 ^ 4300)%Z /\ convert_literals "MB" = Some 1048576%Z /\
  validate_chunks sample_decimal (ustr (str_of_Z 8 ++ "MB")) = inl (8 * 1048576)%Z /\
  (8 * 1048576)%Z = default_chunk_size.
Proof.
  assert (Hr : (0 <= 8 < 10 ^ 4300)%Z).
  { split; [lia|]. apply Z.ltb_lt. vm_compute. reflexivity. }
  split; [exact sample_decimal_table|]. split; [exact Hr|].
  split; [reflexivity|]. split; [|reflexivity].
  apply (validate_chunks_round_trip sample_decimal 8 "MB" 1048576);
    [exact sample_decimal_table | exact Hr | reflexivity].
Defined.

Lemma validate_chunks_inl decimal chunksize v :
  unicode_table decimal ->
  validate_chunks decimal chunksize = inl v ->
  exists digits suffix n size,
    fullmatch_chunksize decimal chunksize = Some (digits, suffix) /\
    chunksize = (digits ++ ustr suffix)%list /\ digits <> [] /\
    forallb (is_decimal decimal) digits = true /\
    (List.length digits <= int_max_str_digits)%nat /\
    convert_literals suffix = Some size /\ (0 < size)%Z /\
    decimal_reading (ascii_digits decimal digits) = Some n /\ (0 <= n)%Z /\
    v = (n * size)%Z.
Proof.
  intros Ht. unfold validate_chunks.
  destruct (fullmatch_chunksize decimal chunksize) as [[digits suffix]|] eqn:Em;
    [|discriminate].
  pose proof Em as Em'. unfold fullmatch_chunksize in Em'.
  destruct (span_digits decimal chunksize) as [ds rest] eqn:Espan.
  destruct (span_digits_spec _ _ _ _ Espan) as (Hsplit & Hds & _).
  destruct ds as [|c ds]; [discriminate|].
  destruct (match_suffix rest) as [sfx|] eqn:Esfx; [|discriminate].
  injection Em' as <- <-.
  destruct (match_suffix_cases _ _ Esfx) as (-> & size & Hsize & Hpos).
  rewrite Hsize.
  destruct (ascii_digits_digits decimal (c :: ds) Ht) as [Hd Hlen].
  rewrite (int_of_str_digits _ Hd), Hlen.
  destruct (Nat.ltb_spec int_max_str_digits (List.length (c :: ds))) as [Hgt | Hle];
    [discriminate|].
  destruct (decimal_reading_digits (ascii_digits decimal (c :: ds))) as (n & Hn & Hn0);
    [intros E; rewrite E in Hlen; discriminate Hlen | exact Hd |].
  rewrite Hn. intros [= <-].
  exists (c :: ds), sfx, n, size. repeat split; try assumption. discriminate.
Qed.

(** X2.  A value returned by [validate_chunks] is never negative, and
    the argument is then a non-empty run of decimal digits of the Unicode
    database, 4300 at most, followed by nothing, [KB], [MB], [GB] or
    [TB]: the value is the decimal reading of the digits times the factor
    of what follows. *)
Theorem validate_chunks_sound decimal chunksize v :
  unicode_table decimal ->
  validate_chunks decimal chunksize = inl v ->
  (0 <= v)%Z /\
  exists digits suffix n size,
    chunksize = (digits ++ ustr suffix)%list /\ digits <> [] /\
    forallb (is_decimal decimal) digits = true /\
    (List.length digits <= int_max_str_digits)%nat /\
    convert_literals suffix = Some size /\
    decimal_reading (ascii_digits decimal digits) = Some n /\ v = (n * size)%Z.
Proof.
  intros Ht Hv.
  destruct (validate_chunks_inl decimal chunksize v Ht Hv)
    as (digits & suffix & n & size & _ & H1 & H2 & H3 & H4 & H5 & H6 & H7 & H8 & H9).
  split; [subst v; nia|].
  exists digits, suffix, n, size. repeat split; assumption.
Qed.

Lemma validate_chunks_sound_witness :
  unicode_table sample_decimal /\
  validate_chunks sample_decimal [1632; 48; 1639; 75; 66]%N = inl 7168%Z /\
  (0 <= 7168)%Z /\
  exists digits suffix n size,
    [1632; 48; 1639; 75; 66]%N = (digits ++ ustr suffix)%list /\ digits <> [] /\
    forallb (is_decimal sample_decimal) digits = true /\
    (List.length digits <= int_max_str_digits)%nat /\
    convert_literals suffix = Some size /\
    decimal_reading (ascii_digits sample_decimal digits) = Some n /\
    7168%Z = (n * size)%Z.
Proof.
  split; [exact sample_decimal_table|]. split; [vm_compute; reflexivity|].
  apply (validate_chunks_sound sample_decimal [1632; 48; 1639; 75; 66]%N 7168);
    [exact sample_decimal_table | vm_compute; reflexivity].
Defined.

(** X3.  [validate_chunks] fails in two ways only: with its own
    [ValueError], which quotes the argument, when the pattern does not
    match; and with the [ValueError] of [int], when the pattern matches
    and the digits are more than 4300.  The lookup in [convert_literals]
    never fails, since the pattern lets through only the keys of the
    table. *)
Theorem validate_chunks_error decimal chunksize e :
  unicode_table decimal ->
  validate_chunks decimal chunksize = inr e ->
  (e = InvalidChunkSize chunksize /\ fullmatch_chunksize decimal chunksize = None) \/
  (e = IntValueError /\
   exists digits suffix,
     fullmatch_chunksize decimal chunksize = Some (digits, suffix) /\
     (int_max_str_digits < List.length digits)%nat).
Proof.
  intros Ht. unfold validate_chunks.
  destruct (fullmatch_chunksize decimal chunksize) as [[digits suffix]|] eqn:Em.
  - pose proof Em as Em'. unfold fullmatch_chunksize in Em'.
    destruct (span_digits decimal chunksize) as [ds rest].
    destruct ds as [|c ds]; [discriminate|].
    destruct (match_suffix rest) as [sfx|] eqn:Esfx; [|discriminate].
    injection Em' as <- <-.
    destruct (match_suffix_cases _ _ Esfx) as (_ & size & -> & _).
    destruct (ascii_digits_digits decimal (c :: ds) Ht) as [Hd Hlen].
    rewrite (int_of_str_digits _ Hd), Hlen.
    destruct (Nat.ltb_spec int_max_str_digits (List.length (c :: ds))) as [Hgt | Hle].
    + intros [= <-]. right. split; [reflexivity|]. now exists (c :: ds), sfx.
    + destruct (decimal_reading_digits (ascii_digits decimal (c :: ds))) as (n & -> & _);
        [intros E; rewrite E in Hlen; discriminate Hlen | exact Hd | discriminate].
  - intros [= <-]. left. now split.
Qed.

Lemma validate_chunks_error_witness :
  unicode_table sample_decimal /\
  validate_chunks sample_decimal (ustr "8mb") = inr (InvalidChunkSize (ustr "8mb")) /\
  ((InvalidChunkSize (ustr "8mb") = InvalidChunkSize (ustr "8mb") /\
    fullmatch_chunksize sample_decimal (ustr "8mb") = None) \/
   (InvalidChunkSize (ustr "8mb") = IntValueError /\
    exists digits suffix,
      fullmatch_chunksize sample_decimal (ustr "8mb") = Some (digits, suffix) /\
      (int_max_str_digits < List.length digits)%nat)).
Proof.
  split; [exact sample_decimal_table|]. split; [vm_compute; reflexivity|].
  apply (validate_chunks_error sample_decimal (ustr "8mb") (InvalidChunkSize (ustr "8mb")));
    [exact sample_decimal_table | vm_compute; reflexivity].
Defined.

(** A run of 4301 digits matches the pattern and is refused by [int]; with
    4300 digits the value is returned. *)
Example validate_chunks_digit_limit :
  validate_chunks sample_decimal (repeat 49%N 4301 ++ ustr "KB")%list
    = inr IntValueError /\
  validate_chunks sample_decimal (repeat 48%N 4299 ++ ustr "1KB")%list = inl 1024%Z.
Proof. split; vm_compute; reflexivity. Qed.

(** ** What the functions leave alone *)

Section Preserves.

Variable R : state -> state -> Prop.
Hypothesis R_refl : forall s, R s s.
Hypothesis R_trans : forall s1 s2 s3, R s1 s2 -> R s2 s3 -> R s1 s3.

Lemma preserves_ret {A} (a : A) : preserves R (ret a).
Proof. intros s. apply R_refl. Qed.

Lemma preserves_raise {A} (e : exn) : preserves R (@raise A e).
Proof. intros s. apply R_refl. Qed.

Lemma preserves_bind {A B} (c : M A) (k : A -> M B) :
  preserves R c -> (forall a, preserves R (k a)) -> preserves R (bind c k).
Proof.
  intros Hc Hk s. unfold bind. specialize (Hc s).
  destruct (c s) as [[a|e] s1]; cbn [snd] in *; [|exact Hc].
  apply (R_trans _ s1); [exact Hc | apply Hk].
Qed.

Lemma preserves_for_each {A} (l : list A) (body : A -> M unit) :
  (forall x, preserves R (body x)) -> preserves R (for_each l body).
Proof.
  intros Hbody. induction l as [|x l IH]; cbn [for_each].
  - apply preserves_ret.
  - apply preserves_bind; auto.
Qed.

Lemma preserves_for_fold {A T} (l : list A) (body : T -> A -> M T) acc :
  (forall acc x, preserves R (body acc x)) -> preserves R (for_fold l body acc).
Proof.
  intros Hbody. revert acc; induction l as [|x l IH]; intros acc; cbn [for_fold].
  - apply preserves_ret.
  - apply preserves_bind; auto.
Qed.

Lemma preserves_try_except {A} (body handler : M A) catches :
  preserves R body -> preserves R handler ->
  preserves R (try_except body catches handler).
Proof.
  intros Hb Hh s. unfold try_except. specialize (Hb s).
  destruct (body s) as [[a|e] s1]; cbn [snd] in *; [exact Hb|].
  destruct (catches e); [|exact Hb].
  apply (R_trans _ s1); [exact Hb | apply Hh].
Qed.

Lemma preserves_for_zip3 {A B C} (res : list (M A)) (lb : list B) (lc : list C) body :
  Forall (preserves R) res -> (forall x v el, preserves R (body x v el)) ->
  preserves R (for_zip3 res lb lc body).
Proof.
  intros Hres Hbody. revert lb lc.
  induction Hres as [|r res Hr _ IH]; intros lb lc; cbn [for_zip3].
  - apply preserves_ret.
  - apply preserves_bind; [exact Hr|]. intros x.
    destruct lb as [|v lb]; [apply preserves_ret|].
    destruct lc as [|el lc]; [apply preserves_ret|].
    apply preserves_bind; auto.
Qed.

Lemma preserves_for_iter_read {T} fuel filename size rest (body : T -> bytes -> T) acc :
  preserves R (emit (EvRead filename size)) ->
  preserves R (for_iter_read fuel filename size rest body acc).
Proof.
  intros Hemit. revert rest acc; induction fuel as [|fuel IH]; intros rest acc;
    cbn [for_iter_read].
  - apply preserves_ret.
  - apply preserves_bind.
    + unfold f_read. apply preserves_bind; [apply Hemit|]. intros _.
      destruct ((size <? - 2 ^ 63) || (2 ^ 63 <=? size))%Z; [apply preserves_raise|].
      destruct (size <? -1)%Z; [apply preserves_raise|].
      destruct (size =? -1)%Z; [apply preserves_ret|].
      destruct (bytes_max <=? size)%Z; [apply preserves_raise | apply preserves_ret].
    + intros [data rest']. destruct data; [apply preserves_ret | apply IH].
Qed.

End Preserves.

Lemma only_events_refl P s : only_events P s s.
Proof. exists []. now rewrite app_nil_r. Qed.

Lemma only_events_trans P s1 s2 s3 :
  only_events P s1 s2 -> only_events P s2 s3 -> only_events P s1 s3.
Proof.
  intros (e1 & H1 & F1) (e2 & H2 & F2). exists (e1 ++ e2)%list.
  rewrite H2, H1, <- app_assoc, forallb_app, F1, F2. now split.
Qed.

Lemma same_stdout_refl s : same_stdout s s.
Proof. reflexivity. Qed.

Lemma same_stdout_trans s1 s2 s3 :
  same_stdout s1 s2 -> same_stdout s2 s3 -> same_stdout s1 s3.
Proof. unfold same_stdout. congruence. Qed.

Lemma emit_only_events P ev : P ev = true -> preserves (only_events P) (emit ev).
Proof. intros H s. exists [ev]. cbn. now rewrite H. Qed.

Lemma print_only_events P line : preserves (only_events P) (print line).
Proof. intros s. exists []. cbn. now rewrite app_nil_r. Qed.

Lemma emit_same_stdout ev : preserves same_stdout (emit ev).
Proof. intros s. reflexivity. Qed.

Section Quiet.

Variable R : state -> state -> Prop.
Hypothesis R_refl : forall s, R s s.
Hypothesis R_trans : forall s1 s2 s3, R s1 s2 -> R s2 s3 -> R s1 s3.

Variable w : world.

Ltac step :=
  lazymatch goal with
  | |- preserves _ (for_iter_read _ _ _ _ _ _) =>
      apply (preserves_for_iter_read R R_refl R_trans)
  | |- preserves _ (for_fold _ _ _) =>
      apply (preserves_for_fold R R_refl R_trans); intros ? ?
  | |- preserves _ (ret _) => apply (preserves_ret R R_refl)
  | |- preserves _ (raise _) => apply (preserves_raise R R_refl)
  | |- preserves _ (bind _ _) => apply (preserves_bind R R_trans); [ | intros ?]
  | |- preserves _ (if ?c then _ else _) => destruct c
  | |- preserves _ (match ?x with _ => _ end) => destruct x
  end.

Section Local.

Hypothesis R_file : forall ev, is_file_event ev = true -> preserves R (emit ev).

Lemma preserves_py_open filename : preserves R (py_open w filename).
Proof. unfold py_open. repeat step. now apply R_file. Qed.

Lemma preserves_md5_checksum filename : preserves R (md5_checksum w filename).
Proof.
unfold md5_checksum. cbv zeta. step; [apply preserves_py_open|].
repeat step. now apply R_file.
Qed.

Lemma preserves_etag_checksum filename chunk_size :
preserves R (etag_checksum w filename chunk_size).
Proof.
unfold etag_checksum. step; [apply preserves_py_open|].
repeat step. now apply R_file.
Qed.

Lemma preserves_etag_compare filename etag mode chunk_size :
preserves R (etag_compare w filename etag mode chunk_size).
Proof.
unfold etag_compare. cbv zeta. repeat step.
- apply preserves_etag_checksum.
- apply preserves_md5_checksum.
Qed.

End Local.

Section Remote.

Hypothesis R_remote : forall ev, is_remote_event ev = true -> preserves R (emit ev).

Lemma preserves_get_objects bucket key p : preserves R (get_objects w bucket key p).
Proof.
unfold get_objects, pattern_search. repeat step. now apply R_remote.
Qed.

Lemma preserves_get_object_etag bucket key : preserves R (get_object_etag w bucket key).
Proof. unfold get_object_etag. repeat step. now apply R_remote. Qed.

Lemma preserves_get_etags_from_s3uri bucket key p :
preserves R (get_etags_from_s3uri w bucket key p).
Proof.
unfold get_etags_from_s3uri. step; [apply preserves_get_objects|].
step; [|repeat step]. step. step; [apply preserves_get_object_etag | step].
Qed.

Lemma preserves_re_compile src : preserves R (re_compile w src).
Proof. unfold re_compile. repeat step. Qed.

Lemma preserves_retrieve_s3uri_etag bucket key p :
preserves R (retrieve_s3uri_etag w bucket key p).
Proof.
unfold retrieve_s3uri_etag, py_assert, etags_pairs. cbv zeta.
step; [repeat step|]. step; [repeat step|].
step; [destruct p; try step; apply preserves_re_compile|].
step. step. step; [apply preserves_get_etags_from_s3uri|].
repeat step.
Qed.

End Remote.

End Quiet.

Lemma emits_only_file_emit ev :
  is_file_event ev = true -> preserves (only_events is_file_event) (emit ev).
Proof. apply emit_only_events. Qed.

Lemma emits_only_remote_emit ev :
  is_remote_event ev = true -> preserves (only_events is_remote_event) (emit ev).
Proof. apply emit_only_events. Qed.

Ltac quiet_stdout :=
  first [ exact same_stdout_refl | exact same_stdout_trans
        | intros ? ?; apply emit_same_stdout ].

Ltac quiet_events :=
  first [ apply only_events_refl | apply only_events_trans
        | exact emits_only_file_emit | exact emits_only_remote_emit ].

(** X4.  The two digest functions and the comparator print nothing, and
    the only operations they perform are openings and reads of local
    files, whether they return or raise. *)
Theorem local_functions_touch_files_only w filename etag mode chunk_size :
  (silent (md5_checksum w filename) /\
   emits_only is_file_event (md5_checksum w filename)) /\
  (silent (etag_checksum w filename chunk_size) /\
   emits_only is_file_event (etag_checksum w filename chunk_size)) /\
  (silent (etag_compare w filename etag mode chunk_size) /\
   emits_only is_file_event (etag_compare w filename etag mode chunk_size)).
Proof.
  unfold silent, emits_only. repeat split.
  - apply preserves_md5_checksum; quiet_stdout.
  - apply preserves_md5_checksum; quiet_events.
  - apply preserves_etag_checksum; quiet_stdout.
  - apply preserves_etag_checksum; quiet_events.
  - apply preserves_etag_compare; quiet_stdout.
  - apply preserves_etag_compare; quiet_events.
Qed.

(** X5.  The functions of the remote resolver print nothing, and the
    only operations they perform are listings of buckets and reads of
    object metadata: no local file is opened or read, whether they
    return or raise. *)
Theorem resolver_touches_remote_only w bucket key buckets keys p :
  (silent (get_objects w bucket key p) /\
   emits_only is_remote_event (get_objects w bucket key p)) /\
  (silent (get_object_etag w bucket key) /\
   emits_only is_remote_event (get_object_etag w bucket key)) /\
  (silent (get_etags_from_s3uri w bucket key p) /\
   emits_only is_remote_event (get_etags_from_s3uri w bucket key p)) /\
  (silent (retrieve_s3uri_etag w buckets keys p) /\
   emits_only is_remote_event (retrieve_s3uri_etag w buckets keys p)).
Proof.
  unfold silent, emits_only. repeat split.
  - apply preserves_get_objects; quiet_stdout.
  - apply preserves_get_objects; quiet_events.
  - apply preserves_get_object_etag; quiet_stdout.
  - apply preserves_get_object_etag; quiet_events.
  - apply preserves_get_etags_from_s3uri; quiet_stdout.
  - apply preserves_get_etags_from_s3uri; quiet_events.
  - apply preserves_retrieve_s3uri_etag; quiet_stdout.
  - apply preserves_retrieve_s3uri_etag; quiet_events.
Qed.

(** X6.  In a local mode [check_hashes] never lists a bucket and never
    reads the metadata of an object, whatever the batch and the other
    arguments, and whether it returns or raises. *)
Theorem check_hashes_local_no_remote w hashes mode chunk_size bucket key p :
  mode = "etag" \/ mode = "md5" ->
  emits_only is_file_event (check_hashes w hashes mode chunk_size bucket key p).
Proof.
  intros Hmode s. destruct hashes as [|h0 hs].
  - pose proof (check_hashes_empty_batch w mode chunk_size bucket key p s Hmode) as H.
    unfold run in H. rewrite H. apply only_events_refl.
  - pose proof (check_hashes_local w (h0 :: hs) mode chunk_size bucket key p s) as H.
    unfold run in H. rewrite H by (assumption || discriminate). clear H.
    destruct (np_chunk_size (h0 :: hs) chunk_size) as [c|x]; [|apply only_events_refl].
    apply (preserves_for_each _ (only_events_refl _) (only_events_trans _)).
    intros [e i]. unfold local_entry.
    apply (preserves_bind _ (only_events_trans _)).
    + apply preserves_etag_compare; quiet_events.
    + intros [[val a] et]. unfold report_local.
      apply (preserves_bind _ (only_events_trans _)); [apply print_only_events|].
      intros _. destruct val; apply print_only_events.
Qed.

Lemma check_hashes_local_no_remote_witness :
  ("md5" = "etag" \/ "md5" = "md5") /\
  emits_only is_file_event
    (check_hashes local_world [("0cc175b9c0f1b6a831c399e269772661", "a.txt")] "md5"
       None (StrArg "bk") (StrArg "dir/") PNone).
Proof.
  split; [right; reflexivity|].
  apply (check_hashes_local_no_remote local_world
           [("0cc175b9c0f1b6a831c399e269772661", "a.txt")] "md5"
           None (StrArg "bk") (StrArg "dir/") PNone).
  right. reflexivity.
Defined.

(** X7.  In mode ["s3uri"] [check_hashes] never opens and never reads a
    local file: the identifiers of the batch are only compared with the
    keys that the resolver returns. *)
Theorem check_hashes_remote_no_local w hashes chunk_size bucket key p :
  emits_only is_remote_event (check_hashes w hashes "s3uri" chunk_size bucket key p).
Proof.
  unfold emits_only, check_hashes.
  change (("s3uri" =? "etag") || ("s3uri" =? "md5")) with false.
  change ("s3uri" =? "s3uri") with true. cbv iota.
  apply (preserves_bind _ (only_events_trans _)).
  { unfold batch_pattern. destruct (negb (truthy_pattern p)).
    - apply preserves_re_compile; quiet_events.
    - apply preserves_ret. apply only_events_refl. }
  intros p'. apply (preserves_bind _ (only_events_trans _)).
  { apply preserves_retrieve_s3uri_etag; quiet_events. }
  intros data. apply (preserves_for_each _ (only_events_refl _) (only_events_trans _)).
  intros entry s. rewrite report_remote_lines. exists []. cbn. now rewrite app_nil_r.
Qed.

(** ** More on the digests *)

(** X8.  For a file that opens, [md5_checksum] returns the hex MD5 of the
    whole content, whatever its length against the buffer of 1 MiB, and
    prints nothing; it opens the file once and reads it
    [ceil(size / 1048576) + 1] times, the last read being the empty one
    that ends the loop. *)
Theorem md5_checksum_reads w filename content s :
  files w filename = Some content ->
  run (md5_checksum w filename) s =
    (Ok (MD5.hexdigest content),
     State (stdout s)
           (events s ++ EvOpen filename
              :: repeat (EvRead filename 1048576)
                   (S (Z.to_nat (ceil_div (Z.of_nat (List.length content)) 1048576))))).
Proof.
  intros Hf. rewrite (md5_checksum_whole _ _ _ _ Hf).
  destruct (split_chunks_spec (S (List.length content)) 1048576 content)
    as (_ & _ & _ & Hcount); [lia | lia |].
  cbv zeta in Hcount. rewrite <- Hcount, Nat2Z.id. reflexivity.
Qed.

Lemma md5_checksum_reads_witness :
  files local_world "ten.bin" = Some (bstr "0123456789") /\
  run (md5_checksum local_world "ten.bin") state0 =
    (Ok (MD5.hexdigest (bstr "0123456789")),
     State (stdout state0)
           (events state0 ++ EvOpen "ten.bin"
              :: repeat (EvRead "ten.bin" 1048576)
                   (S (Z.to_nat (ceil_div (Z.of_nat (List.length (bstr "0123456789")))
                                          1048576))))).
Proof.
  split; [reflexivity|].
  apply (md5_checksum_reads local_world "ten.bin" (bstr "0123456789") state0).
  reflexivity.
Defined.

(** X9.  When the file does not open, both digest functions raise the
    [FileNotFoundError] of [open] after that one attempt: nothing is
    read, nothing is printed, and the chunk size plays no part. *)
Theorem digest_missing_file w filename chunk_size s :
  files w filename = None ->
  run (md5_checksum w filename) s =
    (Raise (FileNotFoundError filename),
     State (stdout s) (events s ++ [EvOpen filename])) /\
  run (etag_checksum w filename chunk_size) s =
    (Raise (FileNotFoundError filename),
     State (stdout s) (events s ++ [EvOpen filename])).
Proof.
  intros Hf. unfold run, md5_checksum, etag_checksum. cbv zeta.
  split; unfold bind at 1; now rewrite py_open_none.
Qed.

Lemma digest_missing_file_witness :
  files local_world "missing.bin" = None /\
  run (md5_checksum local_world "missing.bin") state0 =
    (Raise (FileNotFoundError "missing.bin"),
     State (stdout state0) (events state0 ++ [EvOpen "missing.bin"])) /\
  run (etag_checksum local_world "missing.bin" (-5)) state0 =
    (Raise (FileNotFoundError "missing.bin"),
     State (stdout state0) (events state0 ++ [EvOpen "missing.bin"])).
Proof.
  split; [reflexivity|].
  apply (digest_missing_file local_world "missing.bin" (-5) state0). reflexivity.
Defined.

(** X10.  For a file that is not empty and not longer than the chunk
    size, and a chunk size below [2 ^ 63 - 33], which [read] takes,
    [etag_checksum] reads twice and returns the hex MD5 of the raw MD5 of
    the content, without a part count; the result is the same for every
    such chunk size. *)
Theorem etag_checksum_short_file w filename content chunk_size s :
  files w filename = Some content -> content <> [] ->
  (Z.of_nat (List.length content) <= chunk_size < bytes_max)%Z ->
  run (etag_checksum w filename chunk_size) s =
    (Ok (MD5.hexdigest (MD5.digest content)),
     State (stdout s)
           (events s ++ [EvOpen filename; EvRead filename chunk_size;
                         EvRead filename chunk_size])).
Proof.
  intros Hf Hne Hle.
  rewrite (etag_checksum_chunks _ _ _ _ _ Hf) by lia.
  rewrite split_chunks_one by (auto; lia).
  cbn. now rewrite app_nil_r.
Qed.

Lemma etag_checksum_short_file_witness :
  files local_world "ten.bin" = Some (bstr "0123456789") /\
  bstr "0123456789" <> [] /\
  (Z.of_nat (List.length (bstr "0123456789")) <= 10 < bytes_max)%Z /\
  run (etag_checksum local_world "ten.bin" 10) state0 =
    (Ok (MD5.hexdigest (MD5.digest (bstr "0123456789"))),
     State (stdout state0)
           (events state0 ++ [EvOpen "ten.bin"; EvRead "ten.bin" 10;
                              EvRead "ten.bin" 10])).
Proof.
  assert (Hr : (Z.of_nat (List.length (bstr "0123456789")) <= 10 < bytes_max)%Z).
  { split; [vm_compute; discriminate | reflexivity]. }
  split; [reflexivity|]. split; [discriminate|]. split; [exact Hr|].
  apply (etag_checksum_short_file local_world "ten.bin" (bstr "0123456789") 10 state0).
  - reflexivity.
  - discriminate.
  - exact Hr.
Defined.

Lemma length_bytes_le n z : List.length (MD5.bytes_le n z) = n.
Proof. revert z; induction n as [|n IH]; intros z; cbn; [reflexivity | now rewrite IH]. Qed.

Lemma length_digest msg : List.length (MD5.digest msg) = 16%nat.
Proof. unfold MD5.digest. cbv zeta. now rewrite !length_app, !length_bytes_le. Qed.

Lemma length_hex bs : String.length (MD5.hex bs) = (2 * List.length bs)%nat.
Proof. induction bs as [|x bs IH]; cbn [MD5.hex String.length List.length]; lia. Qed.

Lemma hex_digit_is_hex n : is_hex_char (MD5.hex_digit n) = true.
Proof.
  destruct n as [|p]; [reflexivity|].
  do 5 (try (destruct p as [p|p|]; try reflexivity)).
Qed.

Lemma hex_is_hex bs : string_forallb is_hex_char (MD5.hex bs) = true.
Proof.
  induction bs as [|x bs IH]; cbn [MD5.hex string_forallb]; [reflexivity|].
  now rewrite !hex_digit_is_hex, IH.
Qed.

Lemma hexdigest_format msg :
  String.length (MD5.hexdigest msg) = 32%nat /\
  string_forallb is_hex_char (MD5.hexdigest msg) = true.
Proof.
  unfold MD5.hexdigest. split; [|apply hex_is_hex].
  now rewrite length_hex, length_digest.
Qed.

(** X11.  The shape of the digests of a file that opens, for a positive
    chunk size below [2 ^ 63 - 33], which [read] takes: [md5_checksum]
    returns 32 characters among [0-9a-f];
    [etag_checksum] returns 32 such characters, followed by a dash and
    [ceil(size / chunk_size)] in decimal exactly when the file is longer
    than the chunk size. *)
Theorem digest_format w filename content chunk_size s :
  files w filename = Some content -> (0 < chunk_size < bytes_max)%Z ->
  (exists h, fst (run (md5_checksum w filename) s) = Ok h /\
             String.length h = 32%nat /\ string_forallb is_hex_char h = true) /\
  (exists h, String.length h = 32%nat /\ string_forallb is_hex_char h = true /\
             fst (run (etag_checksum w filename chunk_size) s) =
               Ok (if (chunk_size <? Z.of_nat (List.length content))%Z
                   then h ++ "-"
                        ++ str_of_Z (ceil_div (Z.of_nat (List.length content)) chunk_size)
                   else h)).
Proof.
  intros Hf Hpos. split.
  - exists (MD5.hexdigest content). rewrite (md5_checksum_whole _ _ _ _ Hf).
    split; [reflexivity | apply hexdigest_format].
  - rewrite (etag_checksum_chunks _ _ _ _ _ Hf) by lia. cbv zeta.
    set (parts := split_chunks (S (List.length content)) chunk_size content).
    exists (MD5.hexdigest (List.concat (map MD5.digest parts))).
    split; [apply hexdigest_format|]. split; [apply hexdigest_format|].
    destruct (split_chunks_spec (S (List.length content)) chunk_size content)
      as (_ & _ & _ & Hcount); [lia | lia |].
    fold parts in Hcount. cbv zeta in Hcount. cbn [fst]. rewrite length_map.
    destruct (chunk_size <? Z.of_nat (List.length content))%Z eqn:E.
    + apply Z.ltb_lt in E.
      assert (Htwo : (2 <= ceil_div (Z.of_nat (List.length content)) chunk_size)%Z).
      { rewrite ceil_div_step by lia.
        pose proof (ceil_div_pos (Z.of_nat (List.length content) - chunk_size) chunk_size).
        lia. }
      assert (E1 : (1 <? List.length parts)%nat = true) by (apply Nat.ltb_lt; lia).
      now rewrite E1, Hcount.
    + apply Z.ltb_ge in E.
      assert (Hone : (ceil_div (Z.of_nat (List.length content)) chunk_size <= 1)%Z).
      { destruct content as [|x content].
        - cbn [List.length]. rewrite ceil_div_zero by lia. lia.
        - rewrite ceil_div_small; cbn [List.length] in *; lia. }
      assert (E1 : (1 <? List.length parts)%nat = false) by (apply Nat.ltb_ge; lia).
      now rewrite E1.
Qed.

Lemma digest_format_witness :
  files local_world "ten.bin" = Some (bstr "0123456789") /\ (0 < 4 < bytes_max)%Z /\
  (exists h, fst (run (md5_checksum local_world "ten.bin") state0) = Ok h /\
             String.length h = 32%nat /\ string_forallb is_hex_char h = true) /\
  (exists h, String.length h = 32%nat /\ string_forallb is_hex_char h = true /\
             fst (run (etag_checksum local_world "ten.bin" 4) state0) =
               Ok (if (4 <? Z.of_nat (List.length (bstr "0123456789")))%Z
                   then h ++ "-"
                        ++ str_of_Z (ceil_div (Z.of_nat (List.length (bstr "0123456789"))) 4)
                   else h)).
Proof.
  split; [reflexivity|]. split; [unfold bytes_max; lia|].
  apply (digest_format local_world "ten.bin" (bstr "0123456789") 4 state0);
    [reflexivity | unfold bytes_max; lia].
Defined.

(** ** More on the comparator *)

(** X12.  [etag_compare] removes every double quote at the two ends of
    the expected digest, not one layer: any number of quotes before and
    any number after, balanced or not, give the outcome of the bare
    digest. *)
Theorem etag_compare_strips_all_quotes w filename d n m mode chunk_size s :
  run (etag_compare w filename (replicate n dquote ++ d ++ replicate m dquote)
         mode chunk_size) s =
  run (etag_compare w filename d mode chunk_size) s.
Proof. unfold run, etag_compare. now rewrite strip_layers. Qed.

Lemma etag_compare_run w filename content etag mode chunk_size s :
  files w filename = Some content ->
  mode = "md5" \/ (mode = "etag" /\ (0 <= chunk_size < bytes_max)%Z) ->
  fst (etag_compare w filename etag mode chunk_size s) =
    Ok (strip dquote etag =? local_digest mode chunk_size content,
        local_digest mode chunk_size content, strip dquote etag).
Proof.
  intros Hf [-> | [-> Hcs]]; unfold etag_compare, local_digest.
  - change ("md5" =? "etag") with false. change ("md5" =? "md5") with true.
    cbv iota. unfold bind at 1 2.
    pose proof (md5_checksum_whole w filename content s Hf) as H. unfold run in H.
    rewrite H. unfold ret at 1.
    destruct (strip dquote etag =? MD5.hexdigest content); reflexivity.
  - change ("etag" =? "etag") with true. cbv iota. unfold bind at 1 2.
    pose proof (etag_checksum_chunks w filename content chunk_size s Hf Hcs) as H.
    cbv zeta in H. unfold run in H. rewrite H. unfold ret at 1.
    fold (etag_digest chunk_size content).
    destruct (strip dquote etag =? etag_digest chunk_size content); reflexivity.
Qed.

(** X13.  The outcome of [etag_compare] on a file that opens: the
    digest of the mode (the whole-file MD5 for ["md5"], whatever the
    chunk size; the chunked digest for ["etag"]), the expected digest
    without its quotes, and the flag that says whether the two are the
    same string, character for character. *)
Theorem etag_compare_outcome w filename content etag mode chunk_size s :
  files w filename = Some content ->
  mode = "md5" \/ (mode = "etag" /\ (0 <= chunk_size < bytes_max)%Z) ->
  fst (run (etag_compare w filename etag mode chunk_size) s) =
    Ok (strip dquote etag =? local_digest mode chunk_size content,
        local_digest mode chunk_size content, strip dquote etag) /\
  local_digest "md5" chunk_size content = MD5.hexdigest content /\
  local_digest "etag" chunk_size content = etag_digest chunk_size content.
Proof.
  intros Hf Hmode. split; [|split; reflexivity].
  now apply etag_compare_run.
Qed.

Lemma etag_compare_outcome_witness :
  files local_world "a.txt" = Some (bstr "a") /\
  ("md5" = "md5" \/ ("md5" = "etag" /\ (0 <= 4 < bytes_max)%Z)) /\
  fst (run (etag_compare local_world "a.txt" "0CC175B9C0F1B6A831C399E269772661" "md5" 4)
         state0) =
    Ok ("0CC175B9C0F1B6A831C399E269772661" =? local_digest "md5" 4 (bstr "a"),
        local_digest "md5" 4 (bstr "a"), "0CC175B9C0F1B6A831C399E269772661") /\
  ("0CC175B9C0F1B6A831C399E269772661" =? local_digest "md5" 4 (bstr "a")) = false.
Proof.
  split; [reflexivity|]. split; [left; reflexivity|]. split; [|vm_compute; reflexivity].
  apply (etag_compare_outcome local_world "a.txt" (bstr "a")
           "0CC175B9C0F1B6A831C399E269772661" "md5" 4 state0);
    [reflexivity | left; reflexivity].
Defined.

(** ** More on the local branch *)

Lemma local_entry_lines w mode chunk_size e i content :
  files w i = Some content ->
  mode = "md5" \/ (mode = "etag" /\ (0 <= chunk_size < bytes_max)%Z) ->
  exists evs,
    Forall (fun ev => is_open_event ev = false) evs /\
    forall s, local_entry w mode mode chunk_size (e, i) s =
      (Ok tt, State (stdout s ++ local_lines w mode chunk_size (e, i))
                    (events s ++ EvOpen i :: evs)).
Proof.
  intros Hf Hmode.
  destruct (etag_compare_ok w i content e mode chunk_size Hf Hmode) as (r & evs & Hevs & Hok).
  exists evs. split; [exact Hevs|]. intros s.
  pose proof (etag_compare_run w i content e mode chunk_size s Hf Hmode) as Hr.
  rewrite Hok in Hr. cbn [fst] in Hr. injection Hr as ->.
  unfold local_entry, local_lines. unfold bind at 1. rewrite Hok, Hf.
  unfold report_local, bind, print. cbn [stdout events].
  destruct (strip dquote e =? local_digest mode chunk_size content);
    cbn [stdout events]; rewrite <- app_assoc; reflexivity.
Qed.

Lemma for_each_local_report w mode chunk_size hashes :
  mode = "md5" \/ (mode = "etag" /\ (0 <= chunk_size < bytes_max)%Z) ->
  Forall (fun p => files w (snd p) <> None) hashes ->
  forall s, exists evs,
    for_each hashes (local_entry w mode mode chunk_size) s =
      (Ok tt, State (stdout s ++ flat_map (local_lines w mode chunk_size) hashes)
                    (events s ++ evs)) /\
    count_opens evs = List.length hashes.
Proof.
  intros Hmode Hall. induction Hall as [|[e i] hashes Hf _ IH]; intros s.
  - exists []. cbn [for_each flat_map]. unfold ret. rewrite !app_nil_r.
    split; [now destruct s | reflexivity].
  - cbn [snd] in Hf. destruct (files w i) as [content|] eqn:Ef; [|congruence].
    destruct (local_entry_lines w mode chunk_size e i content Ef Hmode)
      as (evs0 & Hevs0 & Hrun0).
    cbn [for_each flat_map]. unfold bind at 1. rewrite Hrun0.
    destruct (IH (State (stdout s ++ local_lines w mode chunk_size (e, i))
                        (events s ++ EvOpen i :: evs0))) as (evs & Hrun & Hcount).
    cbn [stdout events] in Hrun.
    exists (EvOpen i :: evs0 ++ evs). split.
    + rewrite Hrun. f_equal.
      f_equal; repeat (rewrite <- app_assoc || rewrite <- app_comm_cons); reflexivity.
    + change (EvOpen i :: evs0 ++ evs)%list with ([EvOpen i] ++ evs0 ++ evs)%list.
      rewrite !count_opens_app, (count_opens_reads evs0) by assumption.
      cbn [List.length]. rewrite Hcount. reflexivity.
Qed.

Lemma for_each_app {A} (l1 l2 : list A) (body : A -> M unit) s :
  for_each (l1 ++ l2) body s = bind (for_each l1 body) (fun _ => for_each l2 body) s.
Proof.
  revert s; induction l1 as [|x l1 IH]; intros s; cbn [app for_each].
  - reflexivity.
  - unfold bind. destruct (body x s) as [[[]|e] s1]; [|reflexivity].
    rewrite IH. reflexivity.
Qed.

(** C2, amended.  [check_hashes] catches no read failure.  In a local
    mode, when the file of an entry does not open and the files of the
    entries before it do, the [FileNotFoundError], an [IOError], leaves
    [check_hashes]: the two report lines of every earlier entry have
    been printed, each of these files having been opened once; nothing
    is printed for the entry itself; and the failed opening is the last
    operation, so no later entry is processed.  (The batch holds a
    string at least as long as the name of the mode; a chunk size that
    is given fits 64 bits; in mode ["etag"] the chunk size that reaches
    [etag_compare] is one that [read] takes.) *)
Theorem check_hashes_read_failure_propagates
    w hashes pre e i post mode chunk_size c bucket key pattern s :
  hashes = (pre ++ (e, i) :: post)%list ->
  mode = "md5" \/ (mode = "etag" /\ (0 <= c < bytes_max)%Z) ->
  (String.length mode <= np_itemsize hashes)%nat ->
  match chunk_size with Some z => in_int64 z = true | None => True end ->
  np_chunk_size hashes chunk_size = Ok c ->
  Forall (fun p => files w (snd p) <> None) pre ->
  files w i = None ->
  exists evs,
    run (check_hashes w hashes mode chunk_size bucket key pattern) s =
      (Raise (FileNotFoundError i),
       State (stdout s ++ flat_map (local_lines w mode c) pre)
             (events s ++ evs ++ [EvOpen i])) /\
    count_opens evs = List.length pre /\
    is_IOError (FileNotFoundError i) = true.
Proof.
  intros Hh Hmode Hfit _ Hc Hpre Hi.
  assert (Hne : hashes <> []) by (subst hashes; now destruct pre).
  assert (Hlocal : mode = "etag" \/ mode = "md5") by tauto.
  rewrite check_hashes_local by assumption.
  rewrite Hc, np_cast_fits by assumption. subst hashes.
  unfold run. rewrite for_each_app.
  destruct (for_each_local_report w mode c pre Hmode Hpre s) as (evs & Hrun & Hcount).
  exists evs. split; [|split; [exact Hcount | reflexivity]].
  rewrite (bind_Ok _ _ _ _ _ Hrun). cbn [for_each]. apply bind_Raise.
  unfold local_entry. apply bind_Raise.
  rewrite etag_compare_missing by assumption. cbn [stdout events].
  now rewrite <- app_assoc.
Qed.

Lemma check_hashes_read_failure_propagates_witness :
  (String.length "md5"
   <= np_itemsize [("0cc175b9c0f1b6a831c399e269772661", "a.txt");
                   ("d41d8cd98f00b204e9800998ecf8427e", "missing.bin");
                   ("0cc175b9c0f1b6a831c399e269772661", "a.txt")])%nat /\
  np_chunk_size [("0cc175b9c0f1b6a831c399e269772661", "a.txt");
                 ("d41d8cd98f00b204e9800998ecf8427e", "missing.bin");
                 ("0cc175b9c0f1b6a831c399e269772661", "a.txt")] (Some 8388608%Z)
    = Ok 8388608%Z /\
  files local_world "a.txt" <> None /\
  files local_world "missing.bin" = None /\
  exists evs,
    run (check_hashes local_world
           [("0cc175b9c0f1b6a831c399e269772661", "a.txt");
            ("d41d8cd98f00b204e9800998ecf8427e", "missing.bin");
            ("0cc175b9c0f1b6a831c399e269772661", "a.txt")]
           "md5" (Some 8388608%Z) NoneArg NoneArg PNone) state0 =
      (Raise (FileNotFoundError "missing.bin"),
       State (stdout state0
              ++ flat_map (local_lines local_world "md5" 8388608)
                   [("0cc175b9c0f1b6a831c399e269772661", "a.txt")])
             (events state0 ++ evs ++ [EvOpen "missing.bin"])) /\
    count_opens evs = List.length [("0cc175b9c0f1b6a831c399e269772661", "a.txt")] /\
    is_IOError (FileNotFoundError "missing.bin") = true.
Proof.
  split; [vm_compute; lia|]. split; [vm_compute; reflexivity|].
  split; [vm_compute; discriminate|]. split; [vm_compute; reflexivity|].
  apply (check_hashes_read_failure_propagates local_world
           [("0cc175b9c0f1b6a831c399e269772661", "a.txt");
            ("d41d8cd98f00b204e9800998ecf8427e", "missing.bin");
            ("0cc175b9c0f1b6a831c399e269772661", "a.txt")]
           [("0cc175b9c0f1b6a831c399e269772661", "a.txt")]
           "d41d8cd98f00b204e9800998ecf8427e" "missing.bin"
           [("0cc175b9c0f1b6a831c399e269772661", "a.txt")]
           "md5" (Some 8388608%Z) 8388608%Z NoneArg NoneArg PNone state0).
  - reflexivity.
  - left. reflexivity.
  - vm_compute. lia.
  - reflexivity.
  - vm_compute. reflexivity.
  - constructor; [|constructor]. vm_compute. discriminate.
  - vm_compute. reflexivity.
Defined.

(** The report of the witness: the lines of the first entry only. *)
Example check_hashes_read_failure_run :
  run (check_hashes local_world
         [("0cc175b9c0f1b6a831c399e269772661", "a.txt");
          ("d41d8cd98f00b204e9800998ecf8427e", "missing.bin");
          ("0cc175b9c0f1b6a831c399e269772661", "a.txt")]
         "md5" (Some 8388608%Z) NoneArg NoneArg PNone) state0 =
    (Raise (FileNotFoundError "missing.bin"),
     State ["Comparing md5s for a.txt ...";
            join tab ["0cc175b9c0f1b6a831c399e269772661"; "a.txt"; "Ok!"]]
           [EvOpen "a.txt"; EvRead "a.txt" 1048576; EvRead "a.txt" 1048576;
            EvOpen "missing.bin"]).
Proof. vm_compute. reflexivity. Qed.

(** X14.  The report of a local mode when every file opens: for each
    entry, in the order of the batch, the line [Comparing <mode>s for
    <identifier> ...] and then the expected digest as given (quotes
    included), the identifier and [Ok!], or the expected digest, the
    identifier, [-->], the computed digest and [NO MATCH!], separated by
    tabs; every file is opened once.  (The batch holds a string at least
    as long as the name of the mode; a chunk size that is given fits 64
    bits; in mode ["etag"] the chunk size that reaches [etag_compare] is
    not negative and below [2 ^ 63 - 33], so that [read] takes it.) *)
Theorem check_hashes_local_report w hashes mode chunk_size c bucket key p s :
  hashes <> [] ->
  (mode = "md5" \/ (mode = "etag" /\ (0 <= c < bytes_max)%Z)) ->
  (String.length mode <= np_itemsize hashes)%nat ->
  match chunk_size with Some z => in_int64 z = true | None => True end ->
  np_chunk_size hashes chunk_size = Ok c ->
  Forall (fun p => files w (snd p) <> None) hashes ->
  exists evs,
    run (check_hashes w hashes mode chunk_size bucket key p) s =
      (Ok tt, State (stdout s ++ flat_map (local_lines w mode c) hashes)
                    (events s ++ evs)) /\
    count_opens evs = List.length hashes.
Proof.
  intros Hne Hmode Hfit _ Hc Hall.
  rewrite check_hashes_local; [|assumption|tauto].
  rewrite Hc, np_cast_fits by assumption.
  now apply for_each_local_report.
Qed.

Lemma check_hashes_local_report_witness :
  files local_world "a.txt" <> None /\ files local_world "ten.bin" <> None /\
  in_int64 4 = true /\
  exists evs,
    run (check_hashes local_world
           [(String dquote ("0cc175b9c0f1b6a831c399e269772661" ++ String dquote ""),
             "a.txt");
            ("0cc175b9c0f1b6a831c399e269772661", "ten.bin")]
           "md5" (Some 4%Z) NoneArg NoneArg PNone) state0 =
      (Ok tt,
       State (stdout state0
              ++ flat_map (local_lines local_world "md5" 4)
                   [(String dquote ("0cc175b9c0f1b6a831c399e269772661"
                                    ++ String dquote ""), "a.txt");
                    ("0cc175b9c0f1b6a831c399e269772661", "ten.bin")])
             (events state0 ++ evs)) /\
    count_opens evs = 2%nat.
Proof.
  split; [vm_compute; discriminate|]. split; [vm_compute; discriminate|].
  split; [reflexivity|].
  apply (check_hashes_local_report local_world
           [(String dquote ("0cc175b9c0f1b6a831c399e269772661" ++ String dquote ""),
             "a.txt");
            ("0cc175b9c0f1b6a831c399e269772661", "ten.bin")]
           "md5" (Some 4%Z) 4%Z NoneArg NoneArg PNone state0).
  - discriminate.
  - left. reflexivity.
  - vm_compute. lia.
  - reflexivity.
  - vm_compute. reflexivity.
  - constructor; [|constructor; [|constructor]]; vm_compute; discriminate.
Defined.

(** The report of the witness. *)
Example check_hashes_local_report_run :
  fst (run (check_hashes local_world
           [(String dquote ("0cc175b9c0f1b6a831c399e269772661" ++ String dquote ""),
             "a.txt");
            ("0cc175b9c0f1b6a831c399e269772661", "ten.bin")]
           "md5" (Some 4%Z) NoneArg NoneArg PNone) state0) = Ok tt /\
  stdout (snd (run (check_hashes local_world
           [(String dquote ("0cc175b9c0f1b6a831c399e269772661" ++ String dquote ""),
             "a.txt");
            ("0cc175b9c0f1b6a831c399e269772661", "ten.bin")]
           "md5" (Some 4%Z) NoneArg NoneArg PNone) state0)) =
    ["Comparing md5s for a.txt ...";
     join tab [String dquote ("0cc175b9c0f1b6a831c399e269772661" ++ String dquote "");
               "a.txt"; "Ok!"];
     "Comparing md5s for ten.bin ...";
     join tab ["0cc175b9c0f1b6a831c399e269772661"; "ten.bin"; "-->";
               "781e5e245d69b566979b86e28d23f2c7"; "NO MATCH!"]].
Proof. split; vm_compute; reflexivity. Qed.

Lemma np_chunk_size_given hashes c :
  in_int64 c = true -> (String.length (str_of_Z c) <= np_itemsize hashes)%nat ->
  np_chunk_size hashes (Some c) = Ok c.
Proof.
  intros Hr Hfit. unfold np_chunk_size, py_str.
  now rewrite np_cast_fits, int_of_str_of_Z, Hr.
Qed.

(** X15.  A chunk size given to [check_hashes] reaches every comparison
    of a local mode unchanged, through its decimal text in the array and
    back, when it fits 64 bits and the batch holds a string at least as
    long as that text and as the name of the mode. *)
Theorem check_hashes_chunk_size_given w hashes mode c bucket key p s :
  hashes <> [] -> mode = "etag" \/ mode = "md5" ->
  (String.length mode <= np_itemsize hashes)%nat ->
  (String.length (str_of_Z c) <= np_itemsize hashes)%nat ->
  in_int64 c = true ->
  run (check_hashes w hashes mode (Some c) bucket key p) s =
    run (for_each hashes (local_entry w mode mode c)) s.
Proof.
  intros Hne Hmode Hfit Hcfit Hr.
  rewrite check_hashes_local by assumption.
  now rewrite np_chunk_size_given, np_cast_fits by assumption.
Qed.

Lemma check_hashes_chunk_size_given_witness :
  (String.length "etag"
   <= np_itemsize [("0cc175b9c0f1b6a831c399e269772661", "ten.bin")])%nat /\
  (String.length (str_of_Z 4)
   <= np_itemsize [("0cc175b9c0f1b6a831c399e269772661", "ten.bin")])%nat /\
  in_int64 4 = true /\
  run (check_hashes local_world [("0cc175b9c0f1b6a831c399e269772661", "ten.bin")]
         "etag" (Some 4%Z) NoneArg NoneArg PNone) state0 =
    run (for_each [("0cc175b9c0f1b6a831c399e269772661", "ten.bin")]
           (local_entry local_world "etag" "etag" 4)) state0.
Proof.
  split; [vm_compute; lia|]. split; [vm_compute; lia|]. split; [reflexivity|].
  apply (check_hashes_chunk_size_given local_world
           [("0cc175b9c0f1b6a831c399e269772661", "ten.bin")] "etag" 4
           NoneArg NoneArg PNone state0).
  - discriminate.
  - left. reflexivity.
  - vm_compute. lia.
  - vm_compute. lia.
  - reflexivity.
Defined.

(** X16.  In a local mode an empty batch is an error: [np.insert]
    rejects the array without rows, in the [try] block and again in the
    handler, so [check_hashes] raises [AxisError], having printed
    nothing and opened no file. *)
Theorem check_hashes_local_empty w mode chunk_size bucket key p s :
  mode = "etag" \/ mode = "md5" ->
  run (check_hashes w [] mode chunk_size bucket key p) s = (Raise AxisError, s) /\
  is_ValueError AxisError = true.
Proof. intros [-> | ->]; split; reflexivity. Qed.

Lemma check_hashes_local_empty_witness :
  ("etag" = "etag" \/ "etag" = "md5") /\
  run (check_hashes local_world [] "etag" (Some 8388608%Z) NoneArg NoneArg PNone) state0 =
    (Raise AxisError, state0) /\
  is_ValueError AxisError = true.
Proof.
  split; [left; reflexivity|].
  apply (check_hashes_local_empty local_world "etag" (Some 8388608%Z)
           NoneArg NoneArg PNone state0).
  left. reflexivity.
Defined.

(** ** More on the remote resolver *)

(** X17.  [retrieve_s3uri_etag] needs a bucket and a key: when one of
    them is [None], an empty string or an empty list it raises
    [AssertionError], the bucket being checked first, before the pattern
    is compiled and before any remote operation. *)
Theorem retrieve_missing_arguments w bucket key p s :
  truthy_arg bucket = false \/ truthy_arg key = false ->
  run (retrieve_s3uri_etag w bucket key p) s =
    (Raise (AssertionError (if truthy_arg bucket then "Missing Key!"
                            else "Missing Bucket name!")), s) /\
  truthy_arg NoneArg = false /\ truthy_arg (StrArg "") = false /\
  truthy_arg (ListArg []) = false.
Proof.
  intros H. split; [|repeat split].
  unfold run, retrieve_s3uri_etag, py_assert.
  destruct (truthy_arg bucket) eqn:Eb; [|reflexivity].
  destruct H as [H|H]; [discriminate|]. unfold bind at 1. unfold ret at 1.
  unfold bind at 1. now rewrite H.
Qed.

Lemma retrieve_missing_arguments_witness :
  (truthy_arg (StrArg "bk") = false \/ truthy_arg NoneArg = false) /\
  run (retrieve_s3uri_etag remote_world (StrArg "bk") NoneArg (PList ["x"; "y"])) state0 =
    (Raise (AssertionError (if truthy_arg (StrArg "bk") then "Missing Key!"
                            else "Missing Bucket name!")), state0) /\
  truthy_arg NoneArg = false /\ truthy_arg (StrArg "") = false /\
  truthy_arg (ListArg []) = false.
Proof.
  split; [right; reflexivity|].
  apply (retrieve_missing_arguments remote_world (StrArg "bk") NoneArg
           (PList ["x"; "y"]) state0).
  right. reflexivity.
Defined.

Lemma filter_filter {A} (f g : A -> bool) (l : list A) :
  filter g (filter f l) = filter (fun x => f x && g x) l.
Proof.
  induction l as [|x l IH]; cbn [filter]; [reflexivity|].
  destruct (f x); cbn [filter andb]; [destruct (g x)|]; now rewrite IH.
Qed.

Lemma get_objects_fold w p (l : list (string * string)) acc s :
  truthy_pattern p = false \/ (exists src, p = PCompiled src) ->
  for_fold l
    (fun k obj =>
       hit <- (if negb (truthy_pattern p) then ret (nonempty (fst obj))
               else pattern_search w p (fst obj)) ;;
       if hit then ret (k ++ [fst obj])%list else ret k) acc s =
  (Ok (acc ++ map fst
         (filter (fun obj => match p with
                             | PCompiled src => re_search w src (fst obj)
                             | _ => nonempty (fst obj)
                             end) l))%list, s).
Proof.
  intros Hp. revert acc; induction l as [|obj l IH]; intros acc; cbn [for_fold filter].
  - unfold ret. now rewrite app_nil_r.
  - unfold bind at 1 2.
    assert (E : (if negb (truthy_pattern p) then ret (nonempty (fst obj))
                 else pattern_search w p (fst obj)) s =
                (Ok (match p with
                     | PCompiled src => re_search w src (fst obj)
                     | _ => nonempty (fst obj)
                     end), s)).
    { destruct Hp as [Hp | [src ->]].
      - rewrite Hp. destruct p; try reflexivity. discriminate.
      - reflexivity. }
    rewrite E.
    destruct (match p with
              | PCompiled src => re_search w src (fst obj)
              | _ => nonempty (fst obj)
              end); unfold ret at 1; rewrite IH; cbn [map]; [|reflexivity].
    now rewrite <- app_assoc.
Qed.

Lemma get_objects_spec w bucket key p objs s :
  s3 w bucket = Some objs ->
  truthy_pattern p = false \/ (exists src, p = PCompiled src) ->
  get_objects w bucket key p s =
    (Ok (map fst (filter (selected w key p) objs)),
     State (stdout s) (events s ++ [EvList bucket key])).
Proof.
  intros Hb Hp. unfold get_objects. unfold bind at 1. unfold emit at 1. rewrite Hb.
  rewrite get_objects_fold by assumption. rewrite filter_filter. reflexivity.
Qed.







(** The two reports of the witness: under the prefix that holds the
    objects, and under a prefix that holds none. *)
Example remote_not_found_run :
  run (check_hashes remote_world [("abc", "x.bin"); ("zzz", "nothere")] "s3uri" None
         (StrArg "bk") (StrArg "dir/") PNone) state0 =
    (Ok tt,
     State [join tab ["abc"; "x.bin"; "Ok!"]; "nothere not found!"]
           [EvList "bk" "dir/"; EvHead "bk" "dir/x.bin"]) /\
  run (check_hashes remote_world [("abc", "x.bin"); ("zzz", "nothere")] "s3uri" None
         (StrArg "bk") (StrArg "tmp/") (PCompiled "x.bin")) state0 =
    (Ok tt, State ["x.bin not found!"; "nothere not found!"] [EvList "bk" "tmp/"]).
Proof. split; vm_compute; reflexivity. Qed.

Lemma find_key_nodup (objs : list (string * string)) obj :
  NoDup (map fst objs) -> In obj objs ->
  find (fun o => fst o =? fst obj) objs = Some obj.
Proof.
  induction objs as [|o objs IH]; intros Hnd Hin; [contradiction|].
  cbn [map] in Hnd. inversion Hnd as [|? ? Hnotin Hnd']; subst.
  cbn [find]. destruct Hin as [-> | Hin].
  - now rewrite String.eqb_refl.
  - destruct (String.eqb_spec (fst o) (fst obj)) as [E|_]; [|now apply IH].
    exfalso. apply Hnotin. rewrite E. now apply in_map.
Qed.

Lemma get_object_etag_spec w bucket objs obj s :
  s3 w bucket = Some objs -> NoDup (map fst objs) -> In obj objs ->
  get_object_etag w bucket (fst obj) s =
    (Ok (object_pair obj), State (stdout s) (events s ++ [EvHead bucket (fst obj)])).
Proof.
  intros Hb Hnd Hin. unfold get_object_etag, bind, emit.
  now rewrite Hb, (find_key_nodup objs obj Hnd Hin).
Qed.

Lemma get_etags_fold w bucket objs (sel : list (string * string)) acc s :
  s3 w bucket = Some objs -> NoDup (map fst objs) ->
  (forall obj, In obj sel -> In obj objs) ->
  for_fold (map fst sel)
    (fun et i => x <- get_object_etag w bucket i ;; ret (et ++ [x])%list) acc s =
  (Ok (acc ++ map object_pair sel)%list,
   State (stdout s) (events s ++ map (fun obj => EvHead bucket (fst obj)) sel)).
Proof.
  intros Hb Hnd. revert acc s; induction sel as [|obj sel IH]; intros acc s Hin;
    cbn [map for_fold].
  - unfold ret. rewrite !app_nil_r. now destruct s.
  - erewrite bind_Ok.
    2:{ erewrite bind_Ok; [reflexivity|].
        apply (get_object_etag_spec w bucket objs obj s Hb Hnd). apply Hin. now left. }
    rewrite IH by (intros o Ho; apply Hin; now right).
    cbn [stdout events]. now rewrite <- !app_assoc.
Qed.

Lemma get_etags_from_s3uri_helper w bucket key p objs s :
  s3 w bucket = Some objs -> NoDup (map fst objs) ->
  truthy_pattern p = false \/ (exists src, p = PCompiled src) ->
  get_etags_from_s3uri w bucket key p s =
    (Ok (etags_or_empty (resolved w key p objs)),
     State (stdout s)
           (events s ++ EvList bucket key
              :: map (fun obj => EvHead bucket (fst obj))
                   (filter (selected w key p) objs))).
Proof.
  intros Hb Hnd Hp. unfold get_etags_from_s3uri.
  rewrite (bind_Ok _ _ _ _ _ (get_objects_spec _ _ _ _ _ _ Hb Hp)).
  erewrite bind_Ok.
  2:{ apply (get_etags_fold _ _ objs); auto.
      intros obj Ho. now apply filter_In in Ho. }
  cbn [app stdout events]. unfold ret, resolved, etags_or_empty.
  rewrite <- app_assoc. reflexivity.
Qed.

(** X18.  In a bucket that can be listed and whose keys are distinct,
    without a pattern or with a compiled one, [get_etags_from_s3uri]
    lists the bucket once and reads the metadata of every selected
    object once, in the order of the listing.  It returns, in that
    order, the reported ETag without its quotes paired with the key, for
    the objects whose key starts with the prefix and is found by the
    pattern; or the empty string when there is none. *)
Theorem get_etags_from_s3uri_spec w bucket key p objs s :
  s3 w bucket = Some objs -> NoDup (map fst objs) ->
  truthy_pattern p = false \/ (exists src, p = PCompiled src) ->
  run (get_etags_from_s3uri w bucket key p) s =
    (Ok (etags_or_empty (resolved w key p objs)),
     State (stdout s)
           (events s ++ EvList bucket key
              :: map (fun obj => EvHead bucket (fst obj))
                   (filter (selected w key p) objs))).
Proof.
  intros Hb Hnd Hp. now apply get_etags_from_s3uri_helper.
Qed.

Lemma get_etags_from_s3uri_spec_witness :
  s3 remote_world "bk"
    = Some [("dir/x.bin", String dquote ("abc" ++ String dquote ""));
            ("dir/y.bin", "q-2")] /\
  run (get_etags_from_s3uri remote_world "bk" "dir/" PNone) state0 =
    (Ok (EtagList [("abc", "dir/x.bin"); ("q-2", "dir/y.bin")]),
     State [] [EvList "bk" "dir/"; EvHead "bk" "dir/x.bin"; EvHead "bk" "dir/y.bin"]).
Proof.
  split; [reflexivity|].
  apply (get_etags_from_s3uri_spec remote_world "bk" "dir/" PNone
           [("dir/x.bin", String dquote ("abc" ++ String dquote ""));
            ("dir/y.bin", "q-2")] state0).
  - reflexivity.
  - repeat constructor; cbn; intuition discriminate.
  - left. reflexivity.
Defined.





Lemma for_fold_raise_first {A T} (x : A) (l : list A) (body : T -> A -> M T) acc s e s' :
  body acc x s = (Raise e, s') -> for_fold (x :: l) body acc s = (Raise e, s').
Proof. intros H. cbn [for_fold]. now apply bind_Raise. Qed.

(** X20.  A pattern given as a plain string is never compiled: in mode
    ["s3uri"], as soon as the bucket holds an object under the prefix,
    [check_hashes] raises [AttributeError] at [pattern.search], after
    the listing and before any line is printed. *)
Theorem check_hashes_string_pattern_fails w hashes chunk_size b k pat objs obj s :
  s3 w b = Some objs -> In obj objs -> String.prefix k (fst obj) = true ->
  nonempty b = true -> nonempty k = true -> nonempty pat = true ->
  run (check_hashes w hashes "s3uri" chunk_size (StrArg b) (StrArg k) (PStr pat)) s =
    (Raise (AttributeError "search"),
     State (stdout s) (events s ++ [EvList b k])).
Proof.
  intros Hb Hin Hpre Hbn Hkn Hpn. unfold run, check_hashes.
  change (("s3uri" =? "etag") || ("s3uri" =? "md5")) with false.
  change ("s3uri" =? "s3uri") with true. cbv iota.
  erewrite bind_Ok.
  2:{ unfold batch_pattern. cbn [truthy_pattern]. rewrite Hpn. reflexivity. }
  apply bind_Raise.
  unfold retrieve_s3uri_etag, py_assert. cbn [truthy_arg as_list].
  rewrite Hbn, Hkn. cbv zeta.
  erewrite bind_Ok; [|reflexivity]. erewrite bind_Ok; [|reflexivity].
  erewrite bind_Ok; [|reflexivity].
  cbn [truthy_pattern]. rewrite Hpn.
  apply for_fold_raise_first. apply for_fold_raise_first.
  apply bind_Raise. unfold get_etags_from_s3uri. apply bind_Raise.
  unfold get_objects. erewrite bind_Ok; [|reflexivity]. rewrite Hb.
  assert (Hf : In obj (filter (fun o => String.prefix k (fst o)) objs))
    by (apply filter_In; now split).
  destruct (filter (fun o => String.prefix k (fst o)) objs) as [|o rest];
    [contradiction|].
  apply for_fold_raise_first. apply bind_Raise.
  cbn [truthy_pattern]. rewrite Hpn. reflexivity.
Qed.

Lemma check_hashes_string_pattern_fails_witness :
  s3 remote_world "bk"
    = Some [("dir/x.bin", String dquote ("abc" ++ String dquote ""));
            ("dir/y.bin", "q-2")] /\
  String.prefix "dir/" "dir/y.bin" = true /\
  run (check_hashes remote_world [("abc", "x.bin")] "s3uri" None
         (StrArg "bk") (StrArg "dir/") (PStr "x")) state0 =
    (Raise (AttributeError "search"),
     State (stdout state0) (events state0 ++ [EvList "bk" "dir/"])).
Proof.
  split; [reflexivity|]. split; [reflexivity|].
  apply (check_hashes_string_pattern_fails remote_world [("abc", "x.bin")] None
           "bk" "dir/" "x"
           [("dir/x.bin", String dquote ("abc" ++ String dquote ""));
            ("dir/y.bin", "q-2")] ("dir/y.bin", "q-2") state0);
    try reflexivity.
  right. left. reflexivity.
Defined.

(** X21.  When the identifier of an entry occurs in a resolved key,
    mode ["s3uri"] prints at least one line for the entry, and the
    digest reported for that key is compared with the expected one: the
    entry has the line [Ok!] when they are equal, and otherwise the line
    [NO MATCH!] that shows the reported digest. *)
Theorem report_remote_found w data e i n m s :
  In (n, m) data -> contains i m = true ->
  exists lines,
    run (report_remote w data (e, i)) s = (Ok tt, State (stdout s ++ lines) (events s)) /\
    lines <> [] /\
    In (if n =? e then join tab [e; i; "Ok!"]
        else join tab [e; i; "-->"; n; "NO MATCH!"]) lines.
Proof.
  intros Hin Hc. exists (remote_lines w data (e, i)).
  split; [apply report_remote_lines|].
  unfold remote_lines.
  assert (Hset : In n (py_set w (map fst (filter (fun nm => contains i (snd nm)) data)))).
  { apply py_set_In. apply (in_map fst _ (n, m)).
    apply filter_In. now split. }
  destruct (py_set w (map fst (filter (fun nm => contains i (snd nm)) data)))
    as [|x found]; [contradiction|].
  split; [discriminate|].
  apply (in_map (fun et => if et =? e then join tab [e; i; "Ok!"]
                           else join tab [e; i; "-->"; et; "NO MATCH!"]) _ n Hset).
Qed.

Lemma report_remote_found_witness :
  In ("q-2", "dir/y.bin") [("abc", "dir/x.bin"); ("q-2", "dir/y.bin")] /\
  contains "y.bin" "dir/y.bin" = true /\
  exists lines,
    run (report_remote remote_world [("abc", "dir/x.bin"); ("q-2", "dir/y.bin")]
           ("q-1", "y.bin"))
      state0 = (Ok tt, State (stdout state0 ++ lines) (events state0)) /\
    lines <> [] /\
    In (if "q-2" =? "q-1" then join tab ["q-1"; "y.bin"; "Ok!"]
        else join tab ["q-1"; "y.bin"; "-->"; "q-2"; "NO MATCH!"]) lines.
Proof.
  split; [right; left; reflexivity|]. split; [reflexivity|].
  apply (report_remote_found remote_world [("abc", "dir/x.bin"); ("q-2", "dir/y.bin")]
           "q-1" "y.bin" "q-2" "dir/y.bin" state0).
  - right. left. reflexivity.
  - reflexivity.
Defined.

(** X22.  A pattern given to [retrieve_s3uri_etag] as a list of
    fragments is the alternation of the fragments: with a bucket and a
    key, the call behaves as with the pattern compiled from the
    fragments joined by [|], and raises the error of [re.compile],
    before any remote operation, when the joined text does not
    compile. *)
Theorem retrieve_pattern_list w bucket key l s :
  truthy_arg bucket = true -> truthy_arg key = true ->
  run (retrieve_s3uri_etag w bucket key (PList l)) s =
    if re_valid w (join "|" l)
    then run (retrieve_s3uri_etag w bucket key (PCompiled (join "|" l))) s
    else (Raise (ReError (join "|" l)), s).
Proof.
  intros Hb Hk. unfold run, retrieve_s3uri_etag, py_assert. rewrite Hb, Hk. cbv zeta.
  erewrite !bind_Ok by reflexivity.
  unfold re_compile. destruct (re_valid w (join "|" l)).
  - erewrite !bind_Ok by reflexivity. reflexivity.
  - reflexivity.
Qed.

Lemma retrieve_pattern_list_witness :
  truthy_arg (StrArg "bk") = true /\ truthy_arg (ListArg ["dir/"; "tmp/"]) = true /\
  run (retrieve_s3uri_etag remote_world (StrArg "bk") (ListArg ["dir/"; "tmp/"])
         (PList ["x.bin"; "z"])) state0 =
    if re_valid remote_world (join "|" ["x.bin"; "z"])
    then run (retrieve_s3uri_etag remote_world (StrArg "bk") (ListArg ["dir/"; "tmp/"])
                (PCompiled (join "|" ["x.bin"; "z"]))) state0
    else (Raise (ReError (join "|" ["x.bin"; "z"])), state0).
Proof.
  split; [reflexivity|]. split; [reflexivity|].
  apply (retrieve_pattern_list remote_world (StrArg "bk") (ListArg ["dir/"; "tmp/"])
           ["x.bin"; "z"] state0); reflexivity.
Defined.
